(** * pay_records: tax brackets, pay records and the aggregation of rows

    A shallow embedding of the three iterations of the program
    ([pay_records.py], [pay_records_refactor.py],
    [pay_records_refactor_2.py]) and the properties of their
    specification.

    Modelling conventions.
    - The program is embedded twice over two readings of [Decimal].
      In the modules [Refactor], [Refactor2] and [Original] a [Decimal]
      is an exact rational ([Q]) and the arithmetic is exact; results
      are compared with [==].  This is the program on finite decimals
      whose sums and products need no more than 28 digits, which is
      where the rows, the tables and the aggregation are studied.
    - The module [Dec] is the arithmetic of the [decimal] module under
      its default context: the special values infinity and NaN, results
      rounded to 28 significant digits (half to even), [Overflow] beyond
      the largest exponent, [InvalidOperation] on the undefined cases and
      on the ordering of a NaN.  A finite decimal is the rational it
      denotes: the sign of a zero and the exponent of equal numbers are
      not told apart.  [RefactorDec] is the tax calculator, the records
      and the factory of [pay_records_refactor.py] over that arithmetic;
      the properties that depend on the rounding or on the special
      values are stated there.
    - A raised exception is a value of [exn]; code that may raise returns
      a [result].
    - A dict from employee ids to records is a [gmap Z PayRecord].
    - [int(...)] and [Decimal(...)] on text are library functions: the
      drivers take them as parameters.
    - A file is the list of the rows the csv reader makes of it, or
      nothing when [open] refuses it with [FileNotFoundError] or
      [PermissionError]; a reader that fails in the middle of a file
      ([csv.Error], a decoding error, another [OSError]) is outside the
      model. *)

From Stdlib Require Import QArith Qabs Qround Qpower Lqa ZArith List String Ascii.
From stdpp Require Import gmap strings list fin_maps.

Local Open Scope Q_scope.

Abbreviation Decimal := Q (only parsing).

(** A value of Python's [Decimal] with its special values: a finite
    number, [Decimal('Infinity')] or [Decimal('-Infinity')], a quiet or
    a signaling NaN. *)
Inductive decimal : Type :=
| Fin (q : Q)
| Inf (negative : bool)
| NaN (signaling : bool).

(** ** Python values shared by the three files *)

Module Py.

(** The text of an exception, kept structured. *)
Inductive message : Type :=
| No_suitable_tax_bracket (income : Decimal)
| No_suitable_tax_bracket_for (income : decimal)
| Hours_must_be_positive
| Rates_must_be_positive
| Row_does_not_contain_columns (n : nat) (row : list string)
| Invalid_literal (s : string)
| Not_enough_values_to_unpack
| Too_many_arguments
| Unsupported_operand.

Inductive exn : Type :=
| ValueError (m : message)
| TypeError (m : message)
| IndexError
| InvalidOperation
| Overflow
| RuntimeError.

Inductive result (A : Type) : Type :=
| Ok (a : A)
| Raise (e : exn).
Arguments Ok {A} a.
Arguments Raise {A} e.

#[global] Instance result_ret : MRet result := fun A a => Ok a.
#[global] Instance result_bind : MBind result := fun A B f m =>
  match m with
  | Ok a => f a
  | Raise e => Raise e
  end.

(** [try: body except IndexError: handler] *)
Definition except_IndexError {A} (body handler : result A) : result A :=
  match body with
  | Raise IndexError => handler
  | r => r
  end.

(** [row[i]] *)
Definition index (row : list string) (i : nat) : result string :=
  match row !! i with
  | Some s => Ok s
  | None => Raise IndexError
  end.

(** [s.split(sep)] for a one-character separator. *)
Fixpoint split (sep : ascii) (s : string) : list string :=
  match s with
  | EmptyString => [EmptyString]
  | String c s' =>
      if Ascii.eqb c sep then EmptyString :: split sep s'
      else match split sep s' with
           | w :: ws => String c w :: ws
           | [] => [String c EmptyString]
           end
  end.

(** Truth value of a string: empty is false. *)
Definition truthy (s : string) : bool :=
  match s with
  | EmptyString => false
  | _ => true
  end.

(** [[f(x) for x in xs]] where [f] may raise. *)
Fixpoint comprehension {A B} (f : A -> result B) (xs : list A) : result (list B) :=
  match xs with
  | [] => Ok []
  | x :: xs' => y ← f x; ys ← comprehension f xs'; Ok (y :: ys)
  end.

(** [sum(...)]: starts from 0 and adds from the left. *)
Definition sum_of (xs : list Decimal) : Decimal := fold_left Qplus xs 0.

(** [x < y] on decimals. *)
Definition Qlt_bool (x y : Decimal) : bool := negb (Qle_bool y x).

End Py.
Import Py.

(** ** Tax brackets (the same namedtuple and tables in the three files) *)

(** An upper bound: a decimal, or [Decimal('infinity')]. *)
Inductive bound : Type :=
| finite (q : Decimal)
| infinity.

Record TaxBracket : Type := mkTaxBracket {
  lower_bound : Decimal;
  upper_bound : bound;
  rates : Decimal;
  fixed_amount : Decimal
}.

(** [income < upper] *)
Definition below (income : Decimal) (upper : bound) : bool :=
  match upper with
  | finite q => Qlt_bool income q
  | infinity => true
  end.

Definition Below (income : Decimal) (upper : bound) : Prop :=
  match upper with
  | finite q => income < q
  | infinity => True
  end.

(** [upper <= income] *)
Definition AtMost (upper : bound) (income : Decimal) : Prop :=
  match upper with
  | finite q => q <= income
  | infinity => False
  end.

(** [bracket.lower_bound <= income < bracket.upper_bound] *)
Definition in_bracket (income : Decimal) (bracket : TaxBracket) : bool :=
  Qle_bool (lower_bound bracket) income && below income (upper_bound bracket).

Definition InBracket (income : Decimal) (bracket : TaxBracket) : Prop :=
  lower_bound bracket <= income /\ Below income (upper_bound bracket).

(** [ResidentPayRecord.TAX_BRACKETS] *)
Definition RESIDENT_TAX_BRACKETS : list TaxBracket :=
  [ mkTaxBracket 0 (finite 72) 0.19 0.19;
    mkTaxBracket 72 (finite 361) 0.2342 3.213;
    mkTaxBracket 361 (finite 932) 0.3477 44.2476;
    mkTaxBracket 932 (finite 1380) 0.345 41.7311;
    mkTaxBracket 1380 (finite 3111) 0.39 103.8657;
    mkTaxBracket 3111 infinity 0.47 352.788 ].

(** [WorkingHolidayPayRecord.TAX_BRACKETS]; the fourth field takes the
    namedtuple's default, [Decimal('0.0')]. *)
Definition WORKING_HOLIDAY_TAX_BRACKETS : list TaxBracket :=
  [ mkTaxBracket 0 (finite 37000) 0.15 0.0;
    mkTaxBracket 37000 (finite 90000) 0.32 0.0;
    mkTaxBracket 90000 (finite 180000) 0.37 0.0;
    mkTaxBracket 180000 infinity 0.45 0.0 ].

(** [sum(hour * rate for hour, rate in zip(hours, rates))] *)
Definition sum_products (hours rates : list Decimal) : Decimal :=
  sum_of (map (fun hr => fst hr * snd hr) (zip hours rates)).

(** ** pay_records_refactor.py *)

Module Refactor.

Record TaxCalculator : Type := mkTaxCalculator {
  _tax_brackets : list TaxBracket
}.

(** The [for] loop of [calculate_tax] over the remaining brackets. *)
Fixpoint calculate_tax_loop (brackets : list TaxBracket) (income : Decimal)
  : result Decimal :=
  match brackets with
  | [] => Raise (ValueError (No_suitable_tax_bracket income))
  | bracket :: rest =>
      if in_bracket income bracket
      then Ok (rates bracket * income - fixed_amount bracket)
      else calculate_tax_loop rest income
  end.

Definition calculate_tax (self : TaxCalculator) (income : Decimal)
  : result Decimal :=
  calculate_tax_loop (_tax_brackets self) income.

(** The two subclasses of [PayRecord] and their own fields. *)
Inductive variant : Type :=
| Resident
| WorkingHoliday (_visa : string) (_year_to_date : option Decimal).

Record PayRecord : Type := mkPayRecord {
  _id : Z;
  _hours : list Decimal;
  _rates : list Decimal;
  _tax_calculator : TaxCalculator;
  variant_of : variant
}.

(** [ResidentPayRecord.__init__] *)
Definition ResidentPayRecord (id : Z) (hours rates : list Decimal) : PayRecord :=
  mkPayRecord id hours rates (mkTaxCalculator RESIDENT_TAX_BRACKETS) Resident.

(** [WorkingHolidayPayRecord.__init__]; [create_pay_record] can pass
    [None] for the year to date. *)
Definition WorkingHolidayPayRecord (id : Z) (hours rates : list Decimal)
    (visa : string) (year_to_date : option Decimal) : PayRecord :=
  mkPayRecord id hours rates (mkTaxCalculator WORKING_HOLIDAY_TAX_BRACKETS)
    (WorkingHoliday visa year_to_date).

(** The [income] property of the two subclasses. *)
Definition income (self : PayRecord) : result Decimal :=
  match variant_of self with
  | Resident => Ok (sum_products (_hours self) (_rates self))
  | WorkingHoliday _ (Some ytd) =>
      Ok (ytd + sum_products (_hours self) (_rates self))
  | WorkingHoliday _ None => Raise (TypeError Unsupported_operand)
  end.

(** [PayRecord.tax] *)
Definition tax (self : PayRecord) : result Decimal :=
  i ← income self; calculate_tax (_tax_calculator self) i.

(** [PayRecord.net]: [self.income - self.tax] *)
Definition net (self : PayRecord) : result Decimal :=
  i ← income self; t ← tax self; Ok (i - t).

(** [WorkingHolidayPayRecord.year_to_date] *)
Definition year_to_date (self : PayRecord) : option Decimal :=
  match variant_of self with
  | WorkingHoliday _ ytd => ytd
  | Resident => None
  end.

(** [add_hours], [add_rates]: the lists hold decimals by their type, so
    the [isinstance] test passes and the list is extended in place. *)
Definition add_hours (self : PayRecord) (hours : list Decimal) : PayRecord :=
  mkPayRecord (_id self) (_hours self ++ hours) (_rates self)
    (_tax_calculator self) (variant_of self).

Definition add_rates (self : PayRecord) (rates : list Decimal) : PayRecord :=
  mkPayRecord (_id self) (_hours self) (_rates self ++ rates)
    (_tax_calculator self) (variant_of self).

(** *** The driver: reader, factory and the loop of [main] *)

Section Driver.

(** [int(s)] and [Decimal(s)]; [None] when the text is refused. *)
Variable int_of_str : string -> option Z.
Variable Decimal_of_str : string -> option Decimal.

Definition to_int (s : string) : result Z :=
  match int_of_str s with
  | Some n => Ok n
  | None => Raise (ValueError (Invalid_literal s))
  end.

Definition to_Decimal (s : string) : result Decimal :=
  match Decimal_of_str s with
  | Some q => Ok q
  | None => Raise InvalidOperation
  end.

Definition MIN_COLUMN_VAL : nat := 3.

(** The rows the generator yields before it stops, and the exception
    it stops with, if any. *)
Fixpoint yield_rows (data : list (list string))
  : list (list string) * option exn :=
  match data with
  | [] => ([], None)
  | row :: rest =>
      if (length row <? MIN_COLUMN_VAL)%nat
      then ([], Some (ValueError (Row_does_not_contain_columns MIN_COLUMN_VAL row)))
      else let '(rows, e) := yield_rows rest in (row :: rows, e)
  end.

(** [import_pay_records]: [None] is a file that cannot be opened (the
    message is printed and nothing is yielded); the first row of the
    file is the header, which [next] skips. *)
Definition import_pay_records (file : option (list (list string)))
  : list (list string) * option exn :=
  match file with
  | None => ([], None)
  | Some [] => ([], Some RuntimeError)
  | Some (header :: data) => yield_rows data
  end.

Definition create_pay_record (employee_id : Z) (hours rates : list Decimal)
    (visa : option string) (year_to_date : option Decimal)
  : result PayRecord :=
  if existsb (fun hour => Qle_bool hour 0) hours
  then Raise (ValueError Hours_must_be_positive)
  else if existsb (fun rate => Qle_bool rate 0) rates
  then Raise (ValueError Rates_must_be_positive)
  else match visa with
       | Some v =>
           if truthy v
           then Ok (WorkingHolidayPayRecord employee_id hours rates v year_to_date)
           else Ok (ResidentPayRecord employee_id hours rates)
       | None => Ok (ResidentPayRecord employee_id hours rates)
       end.

(** The [try] block of [main] that reads the fourth and fifth column. *)
Definition visa_and_year_to_date (row : list string)
  : result (option string * option Decimal) :=
  except_IndexError
    (r3 ← index row 3;
     let visa :=
       if String.eqb r3 "417" || String.eqb r3 "462" then Some r3 else None in
     r4 ← index row 4;
     year_to_date ← (if truthy r4 then to_Decimal r4 else Ok 0);
     Ok (visa, Some year_to_date))
    (Ok (None, None)).

(** One turn of the [for] loop of [main] on [combined_records]. *)
Definition loop_body (combined_records : gmap Z PayRecord) (row : list string)
  : result (gmap Z PayRecord) :=
  r0 ← index row 0;
  employee_id ← to_int r0;
  r1 ← index row 1;
  hours ← comprehension to_Decimal (split "," r1);
  r2 ← index row 2;
  rates ← comprehension to_Decimal (split "," r2);
  vy ← visa_and_year_to_date row;
  match combined_records !! employee_id with
  | None =>
      record ← create_pay_record employee_id hours rates (fst vy) (snd vy);
      Ok (<[employee_id := record]> combined_records)
  | Some record =>
      Ok (<[employee_id := add_rates (add_hours record hours) rates]>
            combined_records)
  end.

(** The loop: the dict when the loop ends, and the exception that
    ended it, if any. *)
Fixpoint main_loop (rows : list (list string))
    (combined_records : gmap Z PayRecord)
  : gmap Z PayRecord * option exn :=
  match rows with
  | [] => (combined_records, None)
  | row :: rest =>
      match loop_body combined_records row with
      | Ok combined_records' => main_loop rest combined_records'
      | Raise e => (combined_records, Some e)
      end
  end.

(** [main] up to the end of the loop: the rows come from the
    generator, whose exception surfaces when the loop asks for the
    row after the last one yielded. *)
Definition main (file : option (list (list string)))
  : gmap Z PayRecord * option exn :=
  let '(rows, stopped) := import_pay_records file in
  match main_loop rows ∅ with
  | (combined_records, None) => (combined_records, stopped)
  | aborted => aborted
  end.

End Driver.

End Refactor.

(** ** pay_records_refactor_2.py

    [TaxBracket], [TaxCalculator], [PayRecord] and its two subclasses are
    those of [pay_records_refactor.py]. *)

Module Refactor2.

Import Refactor.

Section Driver.

Variable int_of_str : string -> option Z.
Variable Decimal_of_str : string -> option Decimal.

(** [CsvPayRecordIO.read_pay_records] *)
Definition read_pay_records (file : option (list (list string)))
  : list (list string) * option exn :=
  import_pay_records file.

(** [PayRecordFactoryImpl.create]; [year_to_date] is still text. *)
Definition create (employee_id : Z) (hours rates : list Decimal)
    (visa year_to_date : option string) : result PayRecord :=
  match visa, year_to_date with
  | Some v, Some y =>
      if truthy v && truthy y
      then ytd ← to_Decimal Decimal_of_str y;
           Ok (WorkingHolidayPayRecord employee_id hours rates v (Some ytd))
      else Ok (ResidentPayRecord employee_id hours rates)
  | _, _ => Ok (ResidentPayRecord employee_id hours rates)
  end.

(** [self._factory.create(employee_id, hours, rates, *rest)] *)
Definition create_star (employee_id : Z) (hours rates : list Decimal)
    (rest : list string) : result PayRecord :=
  match rest with
  | [] => create employee_id hours rates None None
  | [v] => create employee_id hours rates (Some v) None
  | [v; y] => create employee_id hours rates (Some v) (Some y)
  | _ => Raise (TypeError Too_many_arguments)
  end.

(** One turn of the loop of [_read_records]. *)
Definition loop_body (records : gmap Z PayRecord) (row : list string)
  : result (gmap Z PayRecord) :=
  match row with
  | employee_id :: hours :: rates :: rest =>
      employee_id ← to_int int_of_str employee_id;
      hours ← comprehension (to_Decimal Decimal_of_str) (split "," hours);
      rates ← comprehension (to_Decimal Decimal_of_str) (split "," rates);
      match records !! employee_id with
      | None =>
          record ← create_star employee_id hours rates rest;
          Ok (<[employee_id := record]> records)
      | Some record =>
          Ok (<[employee_id := add_rates (add_hours record hours) rates]>
                records)
      end
  | _ => Raise (ValueError Not_enough_values_to_unpack)
  end.

Fixpoint read_loop (rows : list (list string)) (records : gmap Z PayRecord)
  : gmap Z PayRecord * option exn :=
  match rows with
  | [] => (records, None)
  | row :: rest =>
      match loop_body records row with
      | Ok records' => read_loop rest records'
      | Raise e => (records, Some e)
      end
  end.

(** [PaySlipGenerator._read_records] *)
Definition _read_records (file : option (list (list string)))
  : gmap Z PayRecord * option exn :=
  let '(rows, stopped) := read_pay_records file in
  match read_loop rows ∅ with
  | (records, None) => (records, stopped)
  | aborted => aborted
  end.

End Driver.

End Refactor2.

(** ** pay_records.py, the first iteration *)

Module Original.

Inductive variant : Type :=
| Resident
| WorkingHoliday (_visa : string) (_year_to_date : Decimal).

Record PayRecord : Type := mkPayRecord {
  _id : Z;
  _hours : list Decimal;
  _rates : list Decimal;
  variant_of : variant
}.

Definition ResidentPayRecord (id : Z) (hours rates : list Decimal) : PayRecord :=
  mkPayRecord id hours rates Resident.

Definition WorkingHolidayPayRecord (id : Z) (hours rates : list Decimal)
    (visa : string) (year_to_date : Decimal) : PayRecord :=
  mkPayRecord id hours rates (WorkingHoliday visa year_to_date).

(** [gross], the same in the two subclasses. *)
Definition gross (self : PayRecord) : Decimal :=
  sum_products (_hours self) (_rates self).

(** [WorkingHolidayPayRecord.year_to_date]:
    [self._year_to_date + self.gross], the field of the working holiday
    record being passed along. *)
Definition year_to_date (_year_to_date : Decimal) (self : PayRecord) : Decimal :=
  _year_to_date + gross self.

(** The loops of the two [tax] properties; a loop that ends without a
    [return] gives [None]. *)
Fixpoint resident_tax_loop (brackets : list TaxBracket) (self : PayRecord)
  : option Decimal :=
  match brackets with
  | [] => None
  | bracket :: rest =>
      if in_bracket (gross self) bracket
      then Some (rates bracket * gross self - fixed_amount bracket)
      else resident_tax_loop rest self
  end.

Fixpoint working_holiday_tax_loop (brackets : list TaxBracket)
    (ytd : Decimal) (self : PayRecord) : option Decimal :=
  match brackets with
  | [] => None
  | bracket :: rest =>
      if in_bracket (year_to_date ytd self) bracket
      then Some (rates bracket * gross self)
      else working_holiday_tax_loop rest ytd self
  end.

Definition tax (self : PayRecord) : option Decimal :=
  match variant_of self with
  | Resident => resident_tax_loop RESIDENT_TAX_BRACKETS self
  | WorkingHoliday _ ytd =>
      working_holiday_tax_loop WORKING_HOLIDAY_TAX_BRACKETS ytd self
  end.

(** [net]: [self.gross - self.tax]; a decimal minus [None] is a
    [TypeError]. *)
Definition net (self : PayRecord) : result Decimal :=
  match tax self with
  | Some t => Ok (gross self - t)
  | None => Raise (TypeError Unsupported_operand)
  end.

Definition add_hours (self : PayRecord) (hours : list Decimal) : PayRecord :=
  mkPayRecord (_id self) (_hours self ++ hours) (_rates self) (variant_of self).

Definition add_rates (self : PayRecord) (rates : list Decimal) : PayRecord :=
  mkPayRecord (_id self) (_hours self) (_rates self ++ rates) (variant_of self).

Section Driver.

Variable int_of_str : string -> option Z.
Variable Decimal_of_str : string -> option Decimal.

(** [import_pay_records]: the header is skipped and every other row
    is yielded as it is. *)
Definition import_pay_records (file : list (list string))
  : list (list string) * option exn :=
  match file with
  | [] => ([], Some RuntimeError)
  | header :: data => (data, None)
  end.

Definition create_pay_record (employee_id : Z) (hours rates : list Decimal)
    (visa : string) (year_to_date : Decimal) : PayRecord :=
  if truthy visa
  then WorkingHolidayPayRecord employee_id hours rates visa year_to_date
  else ResidentPayRecord employee_id hours rates.

Definition loop_body (combined_records : gmap Z PayRecord) (row : list string)
  : result (gmap Z PayRecord) :=
  r0 ← index row 0;
  employee_id ← Refactor.to_int int_of_str r0;
  r1 ← index row 1;
  hours ← comprehension (Refactor.to_Decimal Decimal_of_str) (split "," r1);
  r2 ← index row 2;
  rates ← comprehension (Refactor.to_Decimal Decimal_of_str) (split "," r2);
  visa ← index row 3;
  r4 ← index row 4;
  year_to_date ← (if truthy r4 then Refactor.to_Decimal Decimal_of_str r4 else Ok 0);
  match combined_records !! employee_id with
  | None =>
      Ok (<[employee_id := create_pay_record employee_id hours rates visa year_to_date]>
            combined_records)
  | Some record =>
      Ok (<[employee_id := add_rates (add_hours record hours) rates]>
            combined_records)
  end.

Fixpoint main_loop (rows : list (list string))
    (combined_records : gmap Z PayRecord)
  : gmap Z PayRecord * option exn :=
  match rows with
  | [] => (combined_records, None)
  | row :: rest =>
      match loop_body combined_records row with
      | Ok combined_records' => main_loop rest combined_records'
      | Raise e => (combined_records, Some e)
      end
  end.

End Driver.

End Original.

(** ** Plain literals

    [int] and [Decimal] restricted to an optional sign followed by digits
    (and, for a decimal, an optional fraction): the literals of the
    examples below, on which they agree with Python's. *)

Module Literal.

Definition digit (c : ascii) : option Z :=
  let n := Z.of_nat (nat_of_ascii c) in
  if ((48 <=? n) && (n <=? 57))%Z then Some (n - 48)%Z else None.

Fixpoint digits (s : string) (acc : Z) : option Z :=
  match s with
  | EmptyString => Some acc
  | String c s' =>
      match digit c with
      | Some d => digits s' (10 * acc + d)%Z
      | None => None
      end
  end.

Definition unsigned (s : string) : option Z :=
  match s with
  | EmptyString => None
  | _ => digits s 0%Z
  end.

Definition signed {A} (neg : A -> A) (body : string -> option A) (s : string)
  : option A :=
  match s with
  | String "-" s' => neg <$> body s'
  | String "+" s' => body s'
  | _ => body s
  end.

Definition int_of_str : string -> option Z := signed Z.opp unsigned.

Definition unsigned_decimal (s : string) : option Decimal :=
  match split "." s with
  | [i] => inject_Z <$> unsigned i
  | [i; f] =>
      (fun n => Qmake n (Z.to_pos (10 ^ Z.of_nat (String.length f))))
        <$> unsigned (i ++ f)
  | _ => None
  end.

Definition Decimal_of_str : string -> option Decimal :=
  signed Qopp unsigned_decimal.

End Literal.

(** ** [export_to_csv] of pay_records_refactor.py

    The csv writer is given typed cells, in the order of the header; the
    dict is seen through its values, in the order the loop visits them. *)

Module Csv.

Import Refactor.

Inductive cell : Type :=
| int_cell (n : Z)
| decimal_cell (q : Decimal)
| str_cell (s : string)
| none_cell.

Inductive line : Type :=
| header_line (fieldnames : list string)
| row_line (row : list (string * cell)).

Definition header : list string :=
  ["id"; "income"; "tax"; "net"; "visa"; "yeartodate"]%string.

(** The [row] dict of one record. *)
Definition row_of (record : PayRecord) : result (list (string * cell)) :=
  i ← income record;
  t ← tax record;
  n ← net record;
  Ok ([ ("id", int_cell (_id record)); ("income", decimal_cell i);
        ("tax", decimal_cell t); ("net", decimal_cell n) ]%string
      ++ match variant_of record with
         | WorkingHoliday visa ytd =>
             [ ("visa", str_cell visa);
               ("yeartodate",
                match ytd with
                | Some y => decimal_cell y
                | None => none_cell
                end) ]%string
         | Resident =>
             [ ("visa", str_cell ""); ("yeartodate", str_cell "") ]%string
         end).

(** The [for] loop: the lines written and the exception that stopped
    it, if any. *)
Fixpoint write_rows (values : list PayRecord) : list line * option exn :=
  match values with
  | [] => ([], None)
  | record :: rest =>
      match row_of record with
      | Ok row => let '(lines, e) := write_rows rest in (row_line row :: lines, e)
      | Raise e => ([], Some e)
      end
  end.

Definition export_to_csv (values : list PayRecord) : list line * option exn :=
  let '(lines, e) := write_rows values in (header_line header :: lines, e).

End Csv.

(** ** The arithmetic of the [decimal] module

    The default context: [prec = 28], [rounding = ROUND_HALF_EVEN],
    [Emax = 999999], [Emin = -999999], with the traps
    [InvalidOperation], [DivisionByZero] and [Overflow] set.  A
    constructor call ([Decimal('0.19')]) is exact; the result of an
    operation is rounded to the context. *)

Module Dec.

Definition prec : Z := 28.
Definition Emax : Z := 999999.
Definition Emin : Z := -999999.

(** [context.Etiny()]: the exponent of the least subnormal. *)
Definition Etiny : Z := Emin - prec + 1.

Definition pow10 (e : Z) : Q := 10 ^ e.

(** The integer nearest to [x], the even one of two at the same
    distance. *)
Definition round_half_even (x : Q) : Z :=
  let n := Qfloor x in
  match Qcompare (x - inject_Z n) (1 # 2) with
  | Lt => n
  | Gt => (n + 1)%Z
  | Eq => if Z.even n then n else (n + 1)%Z
  end.

(** The digits of [x] before the point, less one, for [1 <= x]. *)
Fixpoint log10_up (fuel : nat) (x : Q) : Z :=
  match fuel with
  | O => 0%Z
  | S fuel' => if Qle_bool 10 x then (log10_up fuel' (x / 10) + 1)%Z else 0%Z
  end.

(** Less the place of the first digit of [x] after the point, for
    [0 < x < 1]. *)
Fixpoint log10_down (fuel : nat) (x : Q) : Z :=
  match fuel with
  | O => 0%Z
  | S fuel' => if Qle_bool 1 x then 0%Z else (log10_down fuel' (x * 10) - 1)%Z
  end.

(** [Decimal.adjusted()]: the exponent of the first digit of [x], for
    [0 < x]; the fuel is above the number of digits. *)
Definition adjusted (x : Q) : Z :=
  if Qle_bool 1 x
  then log10_up (S (Z.to_nat (Z.log2 (Qnum x)))) x
  else log10_down (S (Z.to_nat (Z.log2 (Zpos (Qden x))))) x.

(** The exponent of the last digit kept for a number whose first digit
    has exponent [k]: [prec] digits, not below [Etiny]. *)
Definition quantum (k : Z) : Z := Z.max (k - (prec - 1)) Etiny.

(** The coefficient of [a] after rounding, for [0 < a]. *)
Definition coefficient (a : Q) : Z :=
  round_half_even (a / pow10 (quantum (adjusted a))).

Definition magnitude (a : Q) : Q :=
  inject_Z (coefficient a) * pow10 (quantum (adjusted a)).

(** [x] rounded to the context, were the exponent without bound. *)
Definition rounded (x : Q) : Q :=
  if Qeq_bool x 0 then x
  else if Qle_bool 0 x then magnitude (Qabs x) else - magnitude (Qabs x).

(** [Decimal._fix]: the rounding of a finite result.  [Overflow] when
    the first digit is above [Emax], before the rounding or after it has
    carried into one digit more. *)
Definition _fix (x : Q) : result Q :=
  if Qeq_bool x 0 then Ok x
  else if (Emax <? adjusted (Qabs x))%Z then Raise Overflow
  else if (adjusted (Qabs x) =? Emax)%Z && (10 ^ prec <=? coefficient (Qabs x))%Z
  then Raise Overflow
  else Ok (rounded x).

Definition is_negative (q : Q) : bool := negb (Qle_bool 0 q).

(** [a * b]: a signaling NaN raises, a quiet NaN is returned, infinity
    times zero is undefined. *)
Definition mul (a b : decimal) : result decimal :=
  match a, b with
  | NaN true, _ | _, NaN true => Raise InvalidOperation
  | NaN false, _ | _, NaN false => Ok (NaN false)
  | Inf s, Inf s' => Ok (Inf (xorb s s'))
  | Inf s, Fin q | Fin q, Inf s =>
      if Qeq_bool q 0 then Raise InvalidOperation
      else Ok (Inf (xorb s (is_negative q)))
  | Fin x, Fin y => r ← _fix (x * y); Ok (Fin r)
  end.

(** [a + b]: the sum of the two infinities of opposite signs is
    undefined. *)
Definition add (a b : decimal) : result decimal :=
  match a, b with
  | NaN true, _ | _, NaN true => Raise InvalidOperation
  | NaN false, _ | _, NaN false => Ok (NaN false)
  | Inf s, Inf s' => if Bool.eqb s s' then Ok (Inf s) else Raise InvalidOperation
  | Inf s, Fin _ | Fin _, Inf s => Ok (Inf s)
  | Fin x, Fin y => r ← _fix (x + y); Ok (Fin r)
  end.

Definition copy_negate (a : decimal) : decimal :=
  match a with
  | Fin q => Fin (- q)
  | Inf s => Inf (negb s)
  | NaN s => NaN s
  end.

(** [a - b] is [a + b.copy_negate()]. *)
Definition sub (a b : decimal) : result decimal := add a (copy_negate b).

(** The order of two decimals; the ordering of a NaN raises. *)
Definition compare (a b : decimal) : result comparison :=
  match a, b with
  | NaN _, _ | _, NaN _ => Raise InvalidOperation
  | Fin x, Fin y => Ok (Qcompare x y)
  | Inf true, Inf true | Inf false, Inf false => Ok Eq
  | Inf true, _ | _, Inf false => Ok Lt
  | Inf false, _ | _, Inf true => Ok Gt
  end.

(** [a <= b] *)
Definition le (a b : decimal) : result bool :=
  c ← compare a b; Ok (match c with Gt => false | _ => true end).

(** [a < b] *)
Definition lt (a b : decimal) : result bool :=
  c ← compare a b; Ok (match c with Lt => true | _ => false end).

End Dec.

(** ** pay_records_refactor.py over the arithmetic of the [decimal] module

    The tables are the ones above: the bounds, rates and offsets they
    hold are finite, and [Decimal('infinity')] is the upper bound of the
    last band. *)

Module RefactorDec.

(** [bracket.upper_bound] as a decimal. *)
Definition upper (bracket : TaxBracket) : decimal :=
  match upper_bound bracket with
  | finite q => Fin q
  | infinity => Inf false
  end.

(** [bracket.lower_bound <= income < bracket.upper_bound]: the second
    comparison is made when the first one holds. *)
Definition in_bracket (income : decimal) (bracket : TaxBracket) : result bool :=
  c ← Dec.le (Fin (lower_bound bracket)) income;
  if c : bool then Dec.lt income (upper bracket) else Ok false.

(** [bracket.rates * income - bracket.fixed_amount] *)
Definition tax_of_bracket (bracket : TaxBracket) (income : decimal)
  : result decimal :=
  p ← Dec.mul (Fin (rates bracket)) income;
  Dec.sub p (Fin (fixed_amount bracket)).

(** The [for] loop of [calculate_tax] over the remaining brackets. *)
Fixpoint calculate_tax_loop (brackets : list TaxBracket) (income : decimal)
  : result decimal :=
  match brackets with
  | [] => Raise (ValueError (No_suitable_tax_bracket_for income))
  | bracket :: rest =>
      c ← in_bracket income bracket;
      if c : bool then tax_of_bracket bracket income
      else calculate_tax_loop rest income
  end.

Definition calculate_tax (self : Refactor.TaxCalculator) (income : decimal)
  : result decimal :=
  calculate_tax_loop (Refactor._tax_brackets self) income.

Inductive variant : Type :=
| Resident
| WorkingHoliday (_visa : string) (_year_to_date : option decimal).

Record PayRecord : Type := mkPayRecord {
  _id : Z;
  _hours : list decimal;
  _rates : list decimal;
  _tax_calculator : Refactor.TaxCalculator;
  variant_of : variant
}.

(** [ResidentPayRecord.__init__] *)
Definition ResidentPayRecord (id : Z) (hours rates : list decimal) : PayRecord :=
  mkPayRecord id hours rates (Refactor.mkTaxCalculator RESIDENT_TAX_BRACKETS)
    Resident.

(** [WorkingHolidayPayRecord.__init__] *)
Definition WorkingHolidayPayRecord (id : Z) (hours rates : list decimal)
    (visa : string) (year_to_date : option decimal) : PayRecord :=
  mkPayRecord id hours rates
    (Refactor.mkTaxCalculator WORKING_HOLIDAY_TAX_BRACKETS)
    (WorkingHoliday visa year_to_date).

(** [sum(...)] from the total so far: the next product is made, then
    added to the total. *)
Fixpoint sum_from (total : decimal) (pairs : list (decimal * decimal))
  : result decimal :=
  match pairs with
  | [] => Ok total
  | (hour, rate) :: rest =>
      p ← Dec.mul hour rate;
      total' ← Dec.add total p;
      sum_from total' rest
  end.

(** [sum(hour * rate for hour, rate in zip(hours, rates))]; the sum
    starts from the integer 0. *)
Definition sum_products (hours rates : list decimal) : result decimal :=
  sum_from (Fin 0) (zip hours rates).

(** The [income] property of the two subclasses. *)
Definition income (self : PayRecord) : result decimal :=
  s ← sum_products (_hours self) (_rates self);
  match variant_of self with
  | Resident => Ok s
  | WorkingHoliday _ (Some ytd) => Dec.add ytd s
  | WorkingHoliday _ None => Raise (TypeError Unsupported_operand)
  end.

(** [PayRecord.tax] *)
Definition tax (self : PayRecord) : result decimal :=
  i ← income self; calculate_tax (_tax_calculator self) i.

(** [PayRecord.net]: [self.income - self.tax] *)
Definition net (self : PayRecord) : result decimal :=
  i ← income self; t ← tax self; Dec.sub i t.

(** [any(x <= 0 for x in xs)]: stops at the first [x] at or below 0. *)
Fixpoint any_nonpositive (xs : list decimal) : result bool :=
  match xs with
  | [] => Ok false
  | x :: rest =>
      c ← Dec.le x (Fin 0);
      if c : bool then Ok true else any_nonpositive rest
  end.

Definition create_pay_record (employee_id : Z) (hours rates : list decimal)
    (visa : option string) (year_to_date : option decimal)
  : result PayRecord :=
  c ← any_nonpositive hours;
  if c : bool then Raise (ValueError Hours_must_be_positive)
  else
    c' ← any_nonpositive rates;
    if c' : bool then Raise (ValueError Rates_must_be_positive)
    else match visa with
         | Some v =>
             if truthy v
             then Ok (WorkingHolidayPayRecord employee_id hours rates v year_to_date)
             else Ok (ResidentPayRecord employee_id hours rates)
         | None => Ok (ResidentPayRecord employee_id hours rates)
         end.

End RefactorDec.

(** ** Notions the properties are stated with *)

(** [Partition lo table]: the first band starts at [lo], every band ends
    strictly above its start, where the next one starts, and the last
    band ends at infinity. *)
Inductive Partition : Decimal -> list TaxBracket -> Prop :=
| Partition_last (lo : Decimal) (b : TaxBracket) :
    lower_bound b == lo -> upper_bound b = infinity ->
    Partition lo [b]
| Partition_band (lo u : Decimal) (b : TaxBracket) (rest : list TaxBracket) :
    lower_bound b == lo -> upper_bound b = finite u -> lo < u ->
    Partition u rest ->
    Partition lo (b :: rest).

Section Entries.

Import Refactor.

Variable int_of_str : string -> option Z.
Variable Decimal_of_str : string -> option Decimal.

(** A row as the loop reads it: the id, the hours and the rates it
    carries, and the record the factory makes of it. *)
Record entry : Type := mkEntry {
  entry_id : Z;
  entry_hours : list Decimal;
  entry_rates : list Decimal;
  entry_record : PayRecord
}.

Definition read_row (row : list string) : result entry :=
  match row with
  | employee_id :: hours :: rates :: rest =>
      employee_id ← to_int int_of_str employee_id;
      hours ← comprehension (to_Decimal Decimal_of_str) (split "," hours);
      rates ← comprehension (to_Decimal Decimal_of_str) (split "," rates);
      record ← Refactor2.create_star Decimal_of_str employee_id hours rates rest;
      Ok (mkEntry employee_id hours rates record)
  | _ => Raise (ValueError Not_enough_values_to_unpack)
  end.

(** What the rows of a file hold for one employee id: nothing when no
    row has the id; otherwise the record made of the first row with the
    id, its hours and rates followed by those of the later rows with the
    id, in the order of the file. *)
Definition aggregated (id : Z) (entries : list entry) : option PayRecord :=
  match List.filter (fun e => (entry_id e =? id)%Z) entries with
  | [] => None
  | first :: later =>
      Some (mkPayRecord id
              (concat (map entry_hours (first :: later)))
              (concat (map entry_rates (first :: later)))
              (_tax_calculator (entry_record first))
              (variant_of (entry_record first)))
  end.

(** The effect of one valid row on the dict. *)
Definition merge (records : gmap Z PayRecord) (e : entry) : gmap Z PayRecord :=
  match records !! entry_id e with
  | None => <[entry_id e := entry_record e]> records
  | Some record =>
      <[entry_id e := add_rates (add_hours record (entry_hours e)) (entry_rates e)]>
        records
  end.

(** A record extended by the later rows of its employee. *)
Definition extended (record : PayRecord) (later : list entry) : PayRecord :=
  mkPayRecord (_id record)
    (_hours record ++ concat (map entry_hours later))
    (_rates record ++ concat (map entry_rates later))
    (_tax_calculator record) (variant_of record).

End Entries.

(** A decimal above zero, at or above zero: a finite one by its value,
    and [Decimal('Infinity')]. *)
Definition positive (d : decimal) : Prop :=
  match d with
  | Fin q => 0 < q
  | Inf false => True
  | _ => False
  end.

Definition nonnegative (d : decimal) : Prop :=
  match d with
  | Fin q => 0 <= q
  | Inf false => True
  | _ => False
  end.

(** A decimal at or below zero; a NaN. *)
Definition at_most_zero (d : decimal) : Prop :=
  match d with
  | Fin q => q <= 0
  | Inf true => True
  | _ => False
  end.

Definition is_nan (d : decimal) : Prop :=
  match d with
  | NaN _ => True
  | _ => False
  end.

(** The first decimal of [xs] that is not above zero is an [x] with
    [P x]. *)
Definition first_defect (P : decimal -> Prop) (xs : list decimal) : Prop :=
  exists pre x post, xs = pre ++ x :: post /\ Forall positive pre /\ P x.

(** The exceptions the body of the loop of [main] can raise on a row. *)
Definition row_defect (e : exn) : Prop :=
  (exists s, e = ValueError (Invalid_literal s))
  \/ e = InvalidOperation
  \/ e = ValueError Hours_must_be_positive
  \/ e = ValueError Rates_must_be_positive.

(** Every record of the dict is filed under its own id. *)
Definition keyed_by_id (records : gmap Z Refactor.PayRecord) : Prop :=
  forall (id : Z) (record : Refactor.PayRecord),
    records !! id = Some record -> Refactor._id record = id.

(** [later] is [earlier] after more rows of its employee: the lists have
    grown at their end and nothing else has changed. *)
Definition grown_from (earlier later : Refactor.PayRecord) : Prop :=
  Refactor._id later = Refactor._id earlier
  /\ Refactor.variant_of later = Refactor.variant_of earlier
  /\ Refactor._tax_calculator later = Refactor._tax_calculator earlier
  /\ Refactor._hours earlier `prefix_of` Refactor._hours later
  /\ Refactor._rates earlier `prefix_of` Refactor._rates later.

(** * Properties *)

(** ** Comparisons and sums *)

Lemma Qlt_bool_true (x y : Decimal) : Qlt_bool x y = true <-> x < y.
Proof.
  unfold Qlt_bool. rewrite negb_true_iff, <- not_true_iff_false, Qle_bool_iff.
  split; [apply Qnot_le_lt | apply Qlt_not_le].
Qed.

Lemma below_true (x : Decimal) (u : bound) : below x u = true <-> Below x u.
Proof. destruct u; simpl; [apply Qlt_bool_true | tauto]. Qed.

Lemma in_bracket_true (x : Decimal) (b : TaxBracket) :
  in_bracket x b = true <-> InBracket x b.
Proof.
  unfold in_bracket, InBracket.
  rewrite andb_true_iff, Qle_bool_iff, below_true. tauto.
Qed.

Lemma in_bracket_false (x : Decimal) (b : TaxBracket) :
  in_bracket x b = false <-> ~ InBracket x b.
Proof. rewrite <- in_bracket_true. destruct (in_bracket x b); intuition congruence. Qed.

Lemma Below_AtMost (x : Decimal) (u : bound) : AtMost u x -> ~ Below x u.
Proof. destruct u; simpl; [intros H1 H2; lra | tauto]. Qed.

Lemma find_head_filter {A} (f : A -> bool) (l : list A) :
  List.find f l = head (List.filter f l).
Proof.
  induction l as [|a l IH]; simpl; [reflexivity|].
  destruct (f a); [reflexivity | exact IH].
Qed.

(** ** The loop of [calculate_tax] *)

Section CalculateTax.

Import Refactor.

Lemma calculate_tax_loop_find (brackets : list TaxBracket) (income : Decimal) :
  calculate_tax_loop brackets income =
  match List.find (in_bracket income) brackets with
  | Some b => Ok (rates b * income - fixed_amount b)
  | None => Raise (ValueError (No_suitable_tax_bracket income))
  end.
Proof.
  induction brackets as [|b brackets IH]; simpl; [reflexivity|].
  destruct (in_bracket income b); [reflexivity | exact IH].
Qed.

(** Either the loop returns at the first bracket that holds the income,
    or no bracket holds it and the loop falls through to the [raise]. *)
Lemma calculate_tax_loop_cases (brackets : list TaxBracket) (income : Decimal) :
  (exists pre b post,
      brackets = pre ++ b :: post /\
      Forall (fun b' => ~ InBracket income b') pre /\
      InBracket income b /\
      calculate_tax_loop brackets income
      = Ok (rates b * income - fixed_amount b))
  \/ (Forall (fun b' => ~ InBracket income b') brackets /\
      calculate_tax_loop brackets income
      = Raise (ValueError (No_suitable_tax_bracket income))).
Proof.
  induction brackets as [|b brackets IH]; simpl.
  - right. split; [constructor | reflexivity].
  - destruct (in_bracket income b) eqn:Hb.
    + left. exists [], b, brackets. apply in_bracket_true in Hb.
      repeat split; try constructor; apply Hb.
    + apply in_bracket_false in Hb.
      destruct IH as [(pre & b' & post & -> & Hpre & Hin & Heq) | [Hall Heq]].
      * left. exists (b :: pre), b', post.
        repeat split; try (constructor; assumption); try apply Hin; assumption.
      * right. split; [constructor; assumption | assumption].
Qed.

End CalculateTax.

(** ** Bracket tables that split the incomes from a lower end upwards *)

Lemma Partition_bands (lo : Decimal) (table : list TaxBracket) :
  Partition lo table ->
  forall x : Decimal,
    (x < lo -> List.filter (in_bracket x) table = []
               /\ Refactor.calculate_tax_loop table x
                  = Raise (ValueError (No_suitable_tax_bracket x)))
    /\ (lo <= x -> exists b,
           In b table /\ List.filter (in_bracket x) table = [b]
           /\ Refactor.calculate_tax_loop table x
              = Ok (rates b * x - fixed_amount b)).
Proof.
  induction 1 as [lo b Hlo Hup | lo u b rest Hlo Hup Hlt Hrest IH]; intros x.
  - assert (Hb : in_bracket x b = Qle_bool (lower_bound b) x).
    { unfold in_bracket. rewrite Hup. simpl. apply andb_true_r. }
    split; intros Hx; simpl; rewrite Hb.
    + assert (Qle_bool (lower_bound b) x = false) as ->.
      { apply not_true_iff_false. rewrite Qle_bool_iff. lra. }
      split; reflexivity.
    + assert (Qle_bool (lower_bound b) x = true) as ->.
      { apply Qle_bool_iff. lra. }
      exists b. repeat split. left; reflexivity.
  - destruct (IH x) as [IHlt IHge].
    split; intros Hx; simpl.
    + assert (in_bracket x b = false) as ->.
      { apply in_bracket_false. intros [H1 _]. lra. }
      apply IHlt. lra.
    + destruct (Qlt_le_dec x u) as [Hxu | Hxu].
      * assert (in_bracket x b = true) as ->.
        { apply in_bracket_true. split; [lra | rewrite Hup; exact Hxu]. }
        destruct (IHlt Hxu) as [-> _].
        exists b. repeat split. left; reflexivity.
      * assert (in_bracket x b = false) as ->.
        { apply in_bracket_false. intros [_ H2]. rewrite Hup in H2. simpl in H2. lra. }
        destruct (IHge Hxu) as (b' & Hin & Hf & Hc).
        exists b'. repeat split; [right; exact Hin | exact Hf | exact Hc].
Qed.

Lemma RESIDENT_TAX_BRACKETS_Partition : Partition 0 RESIDENT_TAX_BRACKETS.
Proof.
  unfold RESIDENT_TAX_BRACKETS.
  repeat (eapply Partition_band; [reflexivity | reflexivity | reflexivity | ]).
  apply Partition_last; reflexivity.
Qed.

Lemma WORKING_HOLIDAY_TAX_BRACKETS_Partition :
  Partition 0 WORKING_HOLIDAY_TAX_BRACKETS.
Proof.
  unfold WORKING_HOLIDAY_TAX_BRACKETS.
  repeat (eapply Partition_band; [reflexivity | reflexivity | reflexivity | ]).
  apply Partition_last; reflexivity.
Qed.

(** ** Rounding to the context of the [decimal] module *)

Lemma pow10_pos e : 0 < Dec.pow10 e.
Proof. unfold Dec.pow10. apply Qpower_0_lt. reflexivity. Qed.

Lemma pow10_nonzero e : ~ Dec.pow10 e == 0.
Proof. pose proof (pow10_pos e). lra. Qed.

Lemma pow10_plus a b : Dec.pow10 (a + b) == Dec.pow10 a * Dec.pow10 b.
Proof. unfold Dec.pow10. apply Qpower_plus. discriminate. Qed.

Lemma pow10_le a b : (a <= b)%Z -> Dec.pow10 a <= Dec.pow10 b.
Proof. intros H. unfold Dec.pow10. apply Qpower_le_compat_l; [exact H | discriminate]. Qed.

Lemma pow10_lt_inv a b : Dec.pow10 a < Dec.pow10 b -> (a < b)%Z.
Proof.
  intros H. destruct (Z_lt_le_dec a b) as [Hlt|Hle]; [exact Hlt|].
  apply pow10_le in Hle. lra.
Qed.

Lemma pow10_inject n : (0 <= n)%Z -> Dec.pow10 n == inject_Z (10 ^ n).
Proof. intros H. unfold Dec.pow10. symmetry. apply (Zpower_Qpower 10 n H). Qed.

Lemma pow10_0 : Dec.pow10 0 == 1.
Proof. reflexivity. Qed.

Lemma pow10_1 : Dec.pow10 1 == 10.
Proof. reflexivity. Qed.

Lemma pow10_succ e : Dec.pow10 (e + 1) == Dec.pow10 e * 10.
Proof. rewrite pow10_plus. rewrite pow10_1. reflexivity. Qed.

Lemma pow10_pred e : Dec.pow10 (e - 1) * 10 == Dec.pow10 e.
Proof. rewrite <- pow10_succ. replace (e - 1 + 1)%Z with e by lia. reflexivity. Qed.

(** *** The nearest integer *)

Lemma round_half_even_cases x :
  Dec.round_half_even x = Qfloor x /\ x - inject_Z (Qfloor x) <= 1 # 2
  \/ Dec.round_half_even x = (Qfloor x + 1)%Z /\ 1 # 2 <= x - inject_Z (Qfloor x).
Proof.
  unfold Dec.round_half_even.
  destruct (Qcompare_spec (x - inject_Z (Qfloor x)) (1 # 2)) as [H|H|H].
  - destruct (Z.even (Qfloor x)); [left | right]; split; try reflexivity; lra.
  - left. split; [reflexivity | lra].
  - right. split; [reflexivity | lra].
Qed.

Lemma inject_Z_succ n : inject_Z (n + 1) == inject_Z n + 1.
Proof. rewrite inject_Z_plus. reflexivity. Qed.

Lemma round_half_even_error x :
  Qabs (inject_Z (Dec.round_half_even x) - x) <= 1 # 2.
Proof.
  pose proof (Qfloor_le x) as Hlo. pose proof (Qlt_floor x) as Hhi.
  rewrite inject_Z_succ in Hhi.
  apply Qabs_Qle_condition.
  destruct (round_half_even_cases x) as [[-> H]|[-> H]].
  - lra.
  - rewrite inject_Z_succ. lra.
Qed.

Lemma round_half_even_le x y : x <= y -> (Dec.round_half_even x <= Dec.round_half_even y)%Z.
Proof.
  intros Hxy. pose proof (Qfloor_resp_le _ _ Hxy) as Hfl.
  destruct (Z.eq_dec (Qfloor x) (Qfloor y)) as [Heq|Hne].
  - unfold Dec.round_half_even. rewrite <- Heq.
    destruct (Qcompare_spec (x - inject_Z (Qfloor x)) (1 # 2)) as [H|H|H];
    destruct (Qcompare_spec (y - inject_Z (Qfloor x)) (1 # 2)) as [H'|H'|H'];
    try lra; destruct (Z.even (Qfloor x)); lia.
  - destruct (round_half_even_cases x) as [[-> _]|[-> _]];
    destruct (round_half_even_cases y) as [[-> _]|[-> _]]; lia.
Qed.

Lemma round_half_even_inject n : Dec.round_half_even (inject_Z n) = n.
Proof.
  unfold Dec.round_half_even. rewrite Qfloor_Z.
  destruct (Qcompare_spec (inject_Z n - inject_Z n) (1 # 2)) as [H|H|H]; try lra.
  reflexivity.
Qed.

Lemma round_half_even_nonneg x : 0 <= x -> (0 <= Dec.round_half_even x)%Z.
Proof.
  intros H. apply (round_half_even_le 0 x) in H.
  change 0 with (inject_Z 0) in H. rewrite round_half_even_inject in H. exact H.
Qed.

(** *** The exponent of the first digit *)

Lemma Qle_bool_true x y : Qle_bool x y = true <-> x <= y.
Proof. apply Qle_bool_iff. Qed.

Lemma Qle_bool_false x y : Qle_bool x y = false <-> y < x.
Proof.
  split.
  - intros H. apply Qnot_le_lt. intros Hle. apply Qle_bool_iff in Hle. congruence.
  - intros H. destruct (Qle_bool x y) eqn:E; [|reflexivity].
    apply Qle_bool_iff in E. lra.
Qed.

Lemma log10_up_spec fuel : forall x,
  1 <= x -> x < Dec.pow10 (Z.of_nat fuel) ->
  Dec.pow10 (Dec.log10_up fuel x) <= x < Dec.pow10 (Dec.log10_up fuel x + 1).
Proof.
  induction fuel as [|fuel IH]; intros x H1 Hf.
  - change (Dec.pow10 (Z.of_nat 0)) with (Dec.pow10 0) in Hf. rewrite pow10_0 in Hf. lra.
  - cbn [Dec.log10_up]. destruct (Qle_bool 10 x) eqn:E.
    + apply Qle_bool_true in E.
      replace (Z.of_nat (S fuel)) with (Z.of_nat fuel + 1)%Z in Hf by lia.
      rewrite pow10_succ in Hf.
      destruct (IH (x / 10)) as [Hlo Hhi].
      * apply Qle_shift_div_l; lra.
      * apply Qlt_shift_div_r; lra.
      * rewrite !pow10_succ. rewrite pow10_succ in Hhi.
        assert (x == x / 10 * 10) as Hx by (field).
        split; lra.
    + apply Qle_bool_false in E. rewrite pow10_succ, pow10_0. lra.
Qed.

Lemma log10_down_spec fuel : forall x,
  Dec.pow10 (- Z.of_nat fuel) <= x -> x < 10 ->
  Dec.pow10 (Dec.log10_down fuel x) <= x < Dec.pow10 (Dec.log10_down fuel x + 1).
Proof.
  induction fuel as [|fuel IH]; intros x Hf H10.
  - change (Dec.pow10 (- Z.of_nat 0)) with (Dec.pow10 0) in Hf. rewrite pow10_0 in Hf.
    cbn [Dec.log10_down]. rewrite pow10_succ, pow10_0. lra.
  - cbn [Dec.log10_down]. destruct (Qle_bool 1 x) eqn:E.
    + apply Qle_bool_true in E. rewrite pow10_succ, pow10_0. lra.
    + apply Qle_bool_false in E.
      replace (- Z.of_nat (S fuel))%Z with (- Z.of_nat fuel - 1)%Z in Hf by lia.
      pose proof (pow10_pred (- Z.of_nat fuel)) as Hp.
      destruct (IH (x * 10)) as [Hlo Hhi]; [lra | lra |].
      replace (Dec.log10_down fuel (x * 10) - 1 + 1)%Z with (Dec.log10_down fuel (x * 10)) by lia.
      pose proof (pow10_pred (Dec.log10_down fuel (x * 10))) as Hp'.
      rewrite pow10_succ in Hhi.
      split; lra.
Qed.

Lemma pow2_le_pow10 n : (0 <= n)%Z -> inject_Z (2 ^ n) <= Dec.pow10 n.
Proof.
  intros H. rewrite pow10_inject by exact H. rewrite <- Zle_Qle.
  apply Z.pow_le_mono_l. lia.
Qed.

Lemma adjusted_spec x : 0 < x ->
  Dec.pow10 (Dec.adjusted x) <= x < Dec.pow10 (Dec.adjusted x + 1).
Proof.
  intros Hx. unfold Dec.adjusted. destruct (Qle_bool 1 x) eqn:E.
  - apply Qle_bool_true in E. apply log10_up_spec; [exact E|].
    destruct x as [n d]. cbn [Qnum].
    assert (0 < n)%Z as Hn by (unfold Qlt in Hx; cbn in Hx; lia).
    pose proof (Z.log2_spec n Hn) as [_ Hlog].
    pose proof (Z.log2_nonneg n) as Hnn.
    replace (Z.of_nat (S (Z.to_nat (Z.log2 n)))) with (Z.succ (Z.log2 n)) by lia.
    eapply Qlt_le_trans; [|apply pow2_le_pow10; lia].
    eapply Qle_lt_trans; [|rewrite <- Zlt_Qlt; exact Hlog].
    unfold Qle, inject_Z. cbn. nia.
  - apply Qle_bool_false in E. apply log10_down_spec; [|lra].
    destruct x as [n d]. cbn [Qden].
    assert (0 < n)%Z as Hn by (unfold Qlt in Hx; cbn in Hx; lia).
    assert (0 < Z.pos d)%Z as Hd by lia.
    pose proof (Z.log2_spec (Z.pos d) Hd) as [_ Hlog].
    pose proof (Z.log2_nonneg (Z.pos d)) as Hnn.
    replace (- Z.of_nat (S (Z.to_nat (Z.log2 (Z.pos d)))))%Z
      with (- (Z.succ (Z.log2 (Z.pos d))))%Z by lia.
    set (m := Z.succ (Z.log2 (Z.pos d))) in *.
    assert (Dec.pow10 (- m) * Dec.pow10 m == 1) as Hinv.
    { rewrite <- pow10_plus. replace (- m + m)%Z with 0%Z by lia. reflexivity. }
    assert (inject_Z (Z.pos d) <= Dec.pow10 m) as Hdm.
    { eapply Qle_trans; [|apply pow2_le_pow10; lia]. rewrite <- Zle_Qle. lia. }
    assert (1 <= (n # d) * inject_Z (Z.pos d)) as Hnd.
    { unfold Qle, Qmult, inject_Z. cbn. nia. }
    pose proof (pow10_pos m) as Hm. pose proof (pow10_pos (- m)) as Hm'.
    assert (Dec.pow10 (- m) * inject_Z (Z.pos d) <= 1) as H1.
    { rewrite <- Hinv. apply Qmult_le_l; [exact Hm' | exact Hdm]. }
    assert (0 < inject_Z (Z.pos d)) as Hdpos.
    { change 0 with (inject_Z 0). rewrite <- Zlt_Qlt. lia. }
    apply (Qmult_le_r _ _ (inject_Z (Z.pos d))); [exact Hdpos | lra].
Qed.

Lemma adjusted_le x y : 0 < x -> x <= y -> (Dec.adjusted x <= Dec.adjusted y)%Z.
Proof.
  intros Hx Hxy.
  destruct (adjusted_spec x Hx) as [Hlo _].
  destruct (adjusted_spec y) as [_ Hhi]; [lra|].
  assert (Dec.adjusted x < Dec.adjusted y + 1)%Z by (apply pow10_lt_inv; lra).
  lia.
Qed.

(** *** The rounded value *)

Lemma scaled_le e x y : x <= y -> x / Dec.pow10 e <= y / Dec.pow10 e.
Proof.
  intros H. pose proof (pow10_pos e) as Hp.
  apply Qle_shift_div_l; [exact Hp|].
  assert (x / Dec.pow10 e * Dec.pow10 e == x) as -> by (field; apply pow10_nonzero).
  exact H.
Qed.

Lemma scaled_pow10 k e : Dec.pow10 k / Dec.pow10 e == Dec.pow10 (k - e).
Proof.
  pose proof (pow10_nonzero e) as Hp.
  assert (Dec.pow10 k == Dec.pow10 (k - e) * Dec.pow10 e) as ->.
  { rewrite <- pow10_plus. replace (k - e + e)%Z with k by lia. reflexivity. }
  field. exact Hp.
Qed.

Lemma coefficient_nonneg a : 0 < a -> (0 <= Dec.coefficient a)%Z.
Proof.
  intros Ha. unfold Dec.coefficient. apply round_half_even_nonneg.
  pose proof (pow10_pos (Dec.quantum (Dec.adjusted a))) as Hp.
  apply Qle_shift_div_l; [exact Hp | lra].
Qed.

Lemma magnitude_nonneg a : 0 < a -> 0 <= Dec.magnitude a.
Proof.
  intros Ha. unfold Dec.magnitude.
  apply Qmult_le_0_compat.
  - change 0 with (inject_Z 0). rewrite <- Zle_Qle. apply coefficient_nonneg, Ha.
  - apply Qlt_le_weak, pow10_pos.
Qed.

Lemma magnitude_upper a : 0 < a ->
  Dec.magnitude a <= Dec.pow10 (Z.max (Dec.adjusted a + 1) (Dec.quantum (Dec.adjusted a))).
Proof.
  intros Ha. destruct (adjusted_spec a Ha) as [_ Hhi].
  unfold Dec.magnitude, Dec.coefficient.
  set (k := Dec.adjusted a) in *. set (e := Dec.quantum k).
  set (d := Z.max (k + 1 - e) 0).
  assert (0 <= d)%Z as Hd by lia.
  replace (Z.max (k + 1) e) with (d + e)%Z by lia.
  rewrite pow10_plus.
  apply Qmult_le_compat_r; [|apply Qlt_le_weak, pow10_pos].
  rewrite (pow10_inject d Hd). rewrite <- Zle_Qle.
  rewrite <- (round_half_even_inject (10 ^ d)).
  apply round_half_even_le.
  rewrite <- (pow10_inject d Hd).
  apply Qle_shift_div_r; [apply pow10_pos|].
  rewrite <- pow10_plus.
  apply Qlt_le_weak. eapply Qlt_le_trans; [exact Hhi|].
  apply pow10_le. lia.
Qed.

Lemma magnitude_lower b : 0 < b ->
  (Dec.quantum (Dec.adjusted b) <= Dec.adjusted b)%Z -> Dec.pow10 (Dec.adjusted b) <= Dec.magnitude b.
Proof.
  intros Hb Hq. destruct (adjusted_spec b Hb) as [Hlo _].
  unfold Dec.magnitude, Dec.coefficient.
  set (k := Dec.adjusted b) in *. set (e := Dec.quantum k) in *.
  assert (0 <= k - e)%Z as Hd by lia.
  assert (Dec.pow10 k == Dec.pow10 (k - e) * Dec.pow10 e) as ->.
  { rewrite <- pow10_plus. replace (k - e + e)%Z with k by lia. reflexivity. }
  apply Qmult_le_compat_r; [|apply Qlt_le_weak, pow10_pos].
  rewrite (pow10_inject _ Hd). rewrite <- Zle_Qle.
  rewrite <- (round_half_even_inject (10 ^ (k - e))) at 1.
  apply round_half_even_le.
  rewrite <- (pow10_inject _ Hd). rewrite <- scaled_pow10.
  apply scaled_le, Hlo.
Qed.

Lemma magnitude_le a b : 0 < a -> a <= b -> Dec.magnitude a <= Dec.magnitude b.
Proof.
  intros Ha Hab. assert (0 < b) as Hb by lra.
  pose proof (adjusted_le a b Ha Hab) as Hk.
  destruct (Z.eq_dec (Dec.quantum (Dec.adjusted a)) (Dec.quantum (Dec.adjusted b))) as [Heq|Hne].
  - unfold Dec.magnitude, Dec.coefficient. rewrite Heq.
    apply Qmult_le_compat_r; [|apply Qlt_le_weak, pow10_pos].
    rewrite <- Zle_Qle. apply round_half_even_le, scaled_le, Hab.
  - eapply Qle_trans; [apply magnitude_upper, Ha|].
    eapply Qle_trans;
      [|apply magnitude_lower; [exact Hb|unfold Dec.quantum, Dec.Etiny, Dec.Emin, Dec.prec in *; lia]].
    apply pow10_le. unfold Dec.quantum, Dec.Etiny, Dec.Emin, Dec.prec in *. lia.
Qed.

Lemma magnitude_error a : 0 < a ->
  Qabs (Dec.magnitude a - a) <= (1 # 2) * Dec.pow10 (Dec.quantum (Dec.adjusted a)).
Proof.
  intros Ha. unfold Dec.magnitude, Dec.coefficient.
  set (e := Dec.quantum (Dec.adjusted a)).
  pose proof (pow10_pos e) as Hp.
  pose proof (round_half_even_error (a / Dec.pow10 e)) as Herr.
  assert (inject_Z (Dec.round_half_even (a / Dec.pow10 e)) * Dec.pow10 e - a
          == (inject_Z (Dec.round_half_even (a / Dec.pow10 e)) - a / Dec.pow10 e) * Dec.pow10 e) as ->.
  { field. apply pow10_nonzero. }
  rewrite Qabs_Qmult. rewrite (Qabs_pos (Dec.pow10 e)) by lra.
  apply Qmult_le_compat_r; [exact Herr | lra].
Qed.

Lemma Qeq_bool_true x y : Qeq_bool x y = true <-> x == y.
Proof. apply Qeq_bool_iff. Qed.

Lemma Qeq_bool_false x y : Qeq_bool x y = false <-> ~ x == y.
Proof.
  split.
  - intros H E. apply Qeq_bool_iff in E. congruence.
  - intros H. destruct (Qeq_bool x y) eqn:E; [|reflexivity].
    apply Qeq_bool_iff in E. contradiction.
Qed.

(** [rounded] by the sign of its argument. *)
Lemma rounded_cases x :
  x == 0 /\ Dec.rounded x = x
  \/ 0 < x /\ Dec.rounded x = Dec.magnitude (Qabs x) /\ Qabs x == x
  \/ x < 0 /\ Dec.rounded x = - Dec.magnitude (Qabs x) /\ Qabs x == - x.
Proof.
  unfold Dec.rounded. destruct (Qeq_bool x 0) eqn:E0.
  - left. apply Qeq_bool_true in E0. split; [exact E0 | reflexivity].
  - apply Qeq_bool_false in E0. destruct (Qle_bool 0 x) eqn:E.
    + apply Qle_bool_true in E. right; left.
      split; [lra|]. split; [reflexivity|]. apply Qabs_pos, E.
    + apply Qle_bool_false in E. right; right.
      split; [exact E|]. split; [reflexivity|]. apply Qabs_neg. lra.
Qed.

Lemma rounded_le x y : x <= y -> Dec.rounded x <= Dec.rounded y.
Proof.
  intros Hxy.
  destruct (rounded_cases x) as [[Hx ->]|[[Hx [-> Hax]]|[Hx [-> Hax]]]];
  destruct (rounded_cases y) as [[Hy ->]|[[Hy [-> Hay]]|[Hy [-> Hay]]]];
  try (assert (0 <= Dec.magnitude (Qabs x)) by (apply magnitude_nonneg; lra));
  try (assert (0 <= Dec.magnitude (Qabs y)) by (apply magnitude_nonneg; lra));
  try (assert (Dec.magnitude (Qabs x) <= Dec.magnitude (Qabs y)) by (apply magnitude_le; lra));
  try (assert (Dec.magnitude (Qabs y) <= Dec.magnitude (Qabs x)) by (apply magnitude_le; lra));
  lra.
Qed.

Lemma rounded_comp x y : x == y -> Dec.rounded x == Dec.rounded y.
Proof.
  intros H. pose proof (rounded_le x y). pose proof (rounded_le y x). lra.
Qed.

Lemma rounded_nonneg x : 0 <= x -> 0 <= Dec.rounded x.
Proof. intros H. apply (rounded_le 0 x H). Qed.

Lemma rounded_nonpos x : x <= 0 -> Dec.rounded x <= 0.
Proof. intros H. apply (rounded_le x 0 H). Qed.

Lemma quantum_small a : 0 < a -> a < 1 -> (Dec.quantum (Dec.adjusted a) <= - Dec.prec)%Z.
Proof.
  intros Ha H1. destruct (adjusted_spec a Ha) as [Hlo _].
  assert (Dec.adjusted a < 0)%Z by (apply pow10_lt_inv; rewrite pow10_0; lra).
  unfold Dec.quantum, Dec.Etiny, Dec.Emin, Dec.prec. lia.
Qed.

Lemma rounded_error x : Qabs x < 1 ->
  Qabs (Dec.rounded x - x) <= (1 # 2) * Dec.pow10 (- Dec.prec).
Proof.
  intros H1. pose proof (pow10_pos (- Dec.prec)) as Hp.
  assert (forall a, 0 < a -> a < 1 ->
    Qabs (Dec.magnitude a - a) <= (1 # 2) * Dec.pow10 (- Dec.prec)) as Hmag.
  { intros a Ha Ha1. eapply Qle_trans; [apply magnitude_error, Ha|].
    apply Qmult_le_l; [reflexivity|]. apply pow10_le, quantum_small; assumption. }
  destruct (rounded_cases x) as [[Hx ->]|[[Hx [-> Hax]]|[Hx [-> Hax]]]].
  - apply Qabs_Qle_condition. lra.
  - specialize (Hmag (Qabs x)). apply Qabs_Qle_condition.
    assert (0 < Qabs x) as H0 by lra. specialize (Hmag H0 H1).
    apply Qabs_Qle_condition in Hmag. lra.
  - specialize (Hmag (Qabs x)). apply Qabs_Qle_condition.
    assert (0 < Qabs x) as H0 by lra. specialize (Hmag H0 H1).
    apply Qabs_Qle_condition in Hmag. lra.
Qed.

Lemma fix_cases x : Dec._fix x = Ok (Dec.rounded x) \/ Dec._fix x = Raise Overflow.
Proof.
  unfold Dec._fix, Dec.rounded. destruct (Qeq_bool x 0); [left; reflexivity|].
  destruct (Dec.Emax <? Dec.adjusted (Qabs x))%Z; [right; reflexivity|].
  destruct ((Dec.adjusted (Qabs x) =? Dec.Emax)%Z && (10 ^ Dec.prec <=? Dec.coefficient (Qabs x))%Z);
    [right | left]; reflexivity.
Qed.

Lemma fix_small x : Qabs x < 100 -> Dec._fix x = Ok (Dec.rounded x).
Proof.
  intros H. unfold Dec._fix, Dec.rounded. destruct (Qeq_bool x 0) eqn:E0; [reflexivity|].
  apply Qeq_bool_false in E0.
  assert (0 < Qabs x) as Hpos.
  { pose proof (Qabs_nonneg x). apply Qabs_case; intros; lra. }
  destruct (adjusted_spec (Qabs x) Hpos) as [Hlo _].
  assert (Dec.adjusted (Qabs x) < 2)%Z as Hk.
  { apply pow10_lt_inv. change (Dec.pow10 2) with 100. lra. }
  assert ((Dec.Emax <? Dec.adjusted (Qabs x))%Z = false) as -> by (unfold Dec.Emax; lia).
  assert ((Dec.adjusted (Qabs x) =? Dec.Emax)%Z = false) as -> by (unfold Dec.Emax; lia).
  reflexivity.
Qed.

(** ** The tax calculator and the fixed tables *)



(** C5. [calculate_tax] raises the "no suitable tax bracket" error, with
    the income in it, when the income is negative (no band starts below
    zero) or is at or above the upper bound of every band. *)
Theorem calculate_tax_out_of_range (self : Refactor.TaxCalculator) (income : Decimal) :
  (income < 0 /\ Forall (fun b => 0 <= lower_bound b) (Refactor._tax_brackets self))
  \/ Forall (fun b => AtMost (upper_bound b) income) (Refactor._tax_brackets self) ->
  Refactor.calculate_tax self income
  = Raise (ValueError (No_suitable_tax_bracket income)).
Proof.
  intros Hout.
  destruct (calculate_tax_loop_cases (Refactor._tax_brackets self) income)
    as [(pre & b & post & Heq & _ & [Hlo Hup] & _) | [_ Hraise]]; [|exact Hraise].
  exfalso.
  assert (Hin : In b (Refactor._tax_brackets self)).
  { rewrite Heq. apply in_or_app. right. left. reflexivity. }
  destruct Hout as [[Hneg Hall] | Hall];
    rewrite Forall_forall in Hall; rewrite <- list_elem_of_In in Hin;
    specialize (Hall b Hin); simpl in Hall.
  - lra.
  - exact (Below_AtMost _ _ Hall Hup).
Qed.

Lemma calculate_tax_out_of_range_witness :
  Refactor.calculate_tax (Refactor.mkTaxCalculator RESIDENT_TAX_BRACKETS) (-1)
  = Raise (ValueError (No_suitable_tax_bracket (-1)))
  /\ Refactor.calculate_tax
       (Refactor.mkTaxCalculator
          [mkTaxBracket 0 (finite 37000) 0.15 0.0;
           mkTaxBracket 37000 (finite 90000) 0.32 0.0]) 90000
     = Raise (ValueError (No_suitable_tax_bracket 90000)).
Proof.
  split.
  - apply calculate_tax_out_of_range. left. split; [reflexivity|].
    repeat constructor; discriminate.
  - apply calculate_tax_out_of_range. right.
    repeat constructor; discriminate.
Defined.

(** ** The refactored calculator over the arithmetic of the [decimal] module *)

Lemma bind_Ok {A B} (a : A) (f : A -> result B) : (Ok a ≫= f) = f a.
Proof. reflexivity. Qed.

Lemma Dec_le_Fin (x y : Q) : Dec.le (Fin x) (Fin y) = Ok (Qle_bool x y).
Proof.
  unfold Dec.le, Dec.compare. rewrite bind_Ok.
  destruct (Qcompare_spec x y) as [H|H|H]; f_equal; symmetry.
  - apply Qle_bool_true. lra.
  - apply Qle_bool_true. lra.
  - apply Qle_bool_false. exact H.
Qed.

Lemma Dec_lt_Fin (x y : Q) : Dec.lt (Fin x) (Fin y) = Ok (Qlt_bool x y).
Proof.
  unfold Dec.lt, Dec.compare, Qlt_bool. rewrite bind_Ok.
  destruct (Qcompare_spec x y) as [H|H|H]; f_equal; symmetry.
  - rewrite (proj2 (Qle_bool_true y x)) by lra. reflexivity.
  - rewrite (proj2 (Qle_bool_false y x)) by lra. reflexivity.
  - rewrite (proj2 (Qle_bool_true y x)) by lra. reflexivity.
Qed.

Lemma mul_Fin (x y : Q) :
  Dec.mul (Fin x) (Fin y) = (r ← Dec._fix (x * y); Ok (Fin r)).
Proof. reflexivity. Qed.

Lemma add_Fin (x y : Q) :
  Dec.add (Fin x) (Fin y) = (r ← Dec._fix (x + y); Ok (Fin r)).
Proof. reflexivity. Qed.

Lemma sub_Fin (x y : Q) :
  Dec.sub (Fin x) (Fin y) = (r ← Dec._fix (x - y); Ok (Fin r)).
Proof. reflexivity. Qed.

(** On a finite income the two comparisons are those of the exact
    model. *)
Lemma in_bracket_Fin (x : Q) (b : TaxBracket) :
  RefactorDec.in_bracket (Fin x) b = Ok (in_bracket x b).
Proof.
  unfold RefactorDec.in_bracket, in_bracket. rewrite Dec_le_Fin, bind_Ok.
  destruct (Qle_bool (lower_bound b) x); [|reflexivity].
  unfold RefactorDec.upper, below. destruct (upper_bound b) as [u|].
  - apply Dec_lt_Fin.
  - reflexivity.
Qed.

Lemma calculate_tax_loop_Fin (brackets : list TaxBracket) (x : Q) :
  RefactorDec.calculate_tax_loop brackets (Fin x) =
  match List.find (in_bracket x) brackets with
  | Some b => RefactorDec.tax_of_bracket b (Fin x)
  | None => Raise (ValueError (No_suitable_tax_bracket_for (Fin x)))
  end.
Proof.
  induction brackets as [|b brackets IH]; [reflexivity|].
  cbn [RefactorDec.calculate_tax_loop List.find].
  rewrite in_bracket_Fin, bind_Ok.
  destruct (in_bracket x b); [reflexivity | exact IH].
Qed.

(** The tax of a band on a finite income is the rounded difference of
    the rounded product and the offset, unless a rounding overflows. *)
Lemma tax_of_bracket_Fin (b : TaxBracket) (x : Q) :
  RefactorDec.tax_of_bracket b (Fin x)
  = Ok (Fin (Dec.rounded (Dec.rounded (rates b * x) - fixed_amount b)))
  \/ RefactorDec.tax_of_bracket b (Fin x) = Raise Overflow.
Proof.
  unfold RefactorDec.tax_of_bracket. rewrite mul_Fin.
  destruct (fix_cases (rates b * x)) as [-> | ->]; [|right; reflexivity].
  rewrite !bind_Ok, sub_Fin.
  destruct (fix_cases (Dec.rounded (rates b * x) - fixed_amount b)) as [-> | ->];
    [left | right]; reflexivity.
Qed.

(** C6 (amended). The two fixed tables split the finite non-negative
    incomes: each is ordered, without gap or overlap, starts at 0 and
    ends at infinity; exactly one band of each holds a given finite
    non-negative income, [calculate_tax] computes the tax of that band
    and does not raise the "no suitable tax bracket" error (in the
    arithmetic of the [decimal] module as in the exact one). *)
Theorem fixed_tables_partition (income : Decimal) :
  0 <= income ->
  Forall (fun table =>
            Partition 0 table /\
            exists b,
              In b table /\
              List.filter (in_bracket income) table = [b] /\
              (forall b', In b' table ->
                 RefactorDec.in_bracket (Fin income) b' = Ok true <-> b' = b) /\
              RefactorDec.calculate_tax (Refactor.mkTaxCalculator table) (Fin income)
              = RefactorDec.tax_of_bracket b (Fin income) /\
              (forall m,
                 RefactorDec.calculate_tax (Refactor.mkTaxCalculator table) (Fin income)
                 <> Raise (ValueError m)) /\
              Refactor.calculate_tax (Refactor.mkTaxCalculator table) income
              = Ok (rates b * income - fixed_amount b))
         [RESIDENT_TAX_BRACKETS; WORKING_HOLIDAY_TAX_BRACKETS].
Proof.
  intros Hnn.
  assert (Hall : forall table, Partition 0 table ->
            Partition 0 table /\
            exists b,
              In b table /\
              List.filter (in_bracket income) table = [b] /\
              (forall b', In b' table ->
                 RefactorDec.in_bracket (Fin income) b' = Ok true <-> b' = b) /\
              RefactorDec.calculate_tax (Refactor.mkTaxCalculator table) (Fin income)
              = RefactorDec.tax_of_bracket b (Fin income) /\
              (forall m,
                 RefactorDec.calculate_tax (Refactor.mkTaxCalculator table) (Fin income)
                 <> Raise (ValueError m)) /\
              Refactor.calculate_tax (Refactor.mkTaxCalculator table) income
              = Ok (rates b * income - fixed_amount b)).
  { intros table Hpart. split; [exact Hpart|].
    destruct (Partition_bands _ _ Hpart income) as [_ Hge].
    destruct (Hge Hnn) as (b & Hin & Hfilter & Hcalc).
    assert (Hfind : List.find (in_bracket income) table = Some b).
    { rewrite find_head_filter, Hfilter. reflexivity. }
    assert (Hdec : RefactorDec.calculate_tax (Refactor.mkTaxCalculator table) (Fin income)
                   = RefactorDec.tax_of_bracket b (Fin income)).
    { unfold RefactorDec.calculate_tax. cbn [Refactor._tax_brackets].
      rewrite calculate_tax_loop_Fin, Hfind. reflexivity. }
    exists b. repeat split; try assumption.
    - intros Hb'. rewrite in_bracket_Fin in Hb'. injection Hb' as Hb'.
      assert (Hin' : In b' (List.filter (in_bracket income) table)).
      { apply filter_In. split; assumption. }
      rewrite Hfilter in Hin'. destruct Hin' as [<- | []]. reflexivity.
    - intros ->. rewrite in_bracket_Fin. f_equal.
      assert (Hin' : In b (List.filter (in_bracket income) table)).
      { rewrite Hfilter. left. reflexivity. }
      apply filter_In in Hin'. apply Hin'.
    - intros m. rewrite Hdec.
      destruct (tax_of_bracket_Fin b income) as [-> | ->]; discriminate. }
  constructor; [apply Hall, RESIDENT_TAX_BRACKETS_Partition|].
  constructor; [apply Hall, WORKING_HOLIDAY_TAX_BRACKETS_Partition|].
  constructor.
Qed.

Lemma fixed_tables_partition_witness :
  Forall (fun table =>
            Partition 0 table /\
            exists b,
              In b table /\
              List.filter (in_bracket 625) table = [b] /\
              (forall b', In b' table ->
                 RefactorDec.in_bracket (Fin 625) b' = Ok true <-> b' = b) /\
              RefactorDec.calculate_tax (Refactor.mkTaxCalculator table) (Fin 625)
              = RefactorDec.tax_of_bracket b (Fin 625) /\
              (forall m,
                 RefactorDec.calculate_tax (Refactor.mkTaxCalculator table) (Fin 625)
                 <> Raise (ValueError m)) /\
              Refactor.calculate_tax (Refactor.mkTaxCalculator table) 625
              = Ok (rates b * 625 - fixed_amount b))
         [RESIDENT_TAX_BRACKETS; WORKING_HOLIDAY_TAX_BRACKETS].
Proof. apply (fixed_tables_partition 625). discriminate. Defined.

(** C6, the claim on every non-negative income: [Decimal('Infinity')] is
    not below zero, [create_pay_record] accepts it as an hour, the
    income of the record is then infinite, no band of either table holds
    it and [calculate_tax] raises the "no suitable tax bracket" error. *)
Lemma infinite_income_has_no_bracket :
  Dec.le (Fin 0) (Inf false) = Ok true /\
  Forall (fun table =>
            Forall (fun b => RefactorDec.in_bracket (Inf false) b = Ok false) table /\
            RefactorDec.calculate_tax (Refactor.mkTaxCalculator table) (Inf false)
            = Raise (ValueError (No_suitable_tax_bracket_for (Inf false))))
         [RESIDENT_TAX_BRACKETS; WORKING_HOLIDAY_TAX_BRACKETS] /\
  exists record,
    RefactorDec.create_pay_record 1 [Inf false] [Fin 20] None None = Ok record /\
    RefactorDec.income record = Ok (Inf false) /\
    RefactorDec.tax record
    = Raise (ValueError (No_suitable_tax_bracket_for (Inf false))).
Proof.
  split; [reflexivity|]. split.
  - repeat constructor.
  - eexists. repeat split; vm_compute; reflexivity.
Qed.

(** *** Records of positive hours and rates *)

Lemma any_nonpositive_false (xs : list decimal) :
  RefactorDec.any_nonpositive xs = Ok false <-> Forall positive xs.
Proof.
  induction xs as [|x xs IH]; cbn [RefactorDec.any_nonpositive].
  - split; [constructor | reflexivity].
  - destruct x as [q | [|] | s].
    + rewrite Dec_le_Fin, bind_Ok. destruct (Qle_bool q 0) eqn:E.
      * apply Qle_bool_true in E. split; [discriminate|].
        intros H. inversion H as [|? ? Hq _]. simpl in Hq. lra.
      * apply Qle_bool_false in E. rewrite IH. split.
        -- intros H. constructor; [exact E | exact H].
        -- intros H. inversion H. assumption.
    + split; [discriminate|]. intros H. inversion H as [|? ? Hx _].
      exfalso. exact Hx.
    + change (Dec.le (Inf false) (Fin 0)) with (@Ok bool false).
      rewrite bind_Ok, IH. split.
      * intros H. constructor; [exact I | exact H].
      * intros H. inversion H. assumption.
    + split; [destruct s; discriminate|]. intros H. inversion H as [|? ? Hx _].
      exfalso. exact Hx.
Qed.

Lemma mul_positive (a b d : decimal) :
  positive a -> positive b -> Dec.mul a b = Ok d -> nonnegative d.
Proof.
  destruct a as [x | [|] | sa]; destruct b as [y | [|] | sb];
    cbn [positive]; try contradiction; intros Ha Hb He.
  - rewrite mul_Fin in He.
    destruct (fix_cases (x * y)) as [E | E]; rewrite E in He;
      [|discriminate He].
    rewrite bind_Ok in He. injection He as <-.
    apply rounded_nonneg, Qmult_le_0_compat; lra.
  - cbn [Dec.mul] in He.
    rewrite (proj2 (Qeq_bool_false x 0)) in He by lra.
    unfold Dec.is_negative in He.
    rewrite (proj2 (Qle_bool_true 0 x)) in He by lra.
    injection He as <-. exact I.
  - cbn [Dec.mul] in He.
    rewrite (proj2 (Qeq_bool_false y 0)) in He by lra.
    unfold Dec.is_negative in He.
    rewrite (proj2 (Qle_bool_true 0 y)) in He by lra.
    injection He as <-. exact I.
  - injection He as <-. exact I.
Qed.

Lemma add_nonnegative (a b d : decimal) :
  nonnegative a -> nonnegative b -> Dec.add a b = Ok d -> nonnegative d.
Proof.
  destruct a as [x | [|] | sa]; destruct b as [y | [|] | sb];
    cbn [nonnegative]; try contradiction; intros Ha Hb He.
  - rewrite add_Fin in He.
    destruct (fix_cases (x + y)) as [E | E]; rewrite E in He;
      [|discriminate He].
    rewrite bind_Ok in He. injection He as <-.
    apply rounded_nonneg. lra.
  - injection He as <-. exact I.
  - injection He as <-. exact I.
  - injection He as <-. exact I.
Qed.

Lemma sum_from_nonnegative (pairs : list (decimal * decimal)) :
  Forall (fun hr => positive (fst hr) /\ positive (snd hr)) pairs ->
  forall total d : decimal,
    nonnegative total -> RefactorDec.sum_from total pairs = Ok d -> nonnegative d.
Proof.
  induction 1 as [|[h r] pairs [Hh Hr] _ IH]; intros total d Ht He;
    cbn [RefactorDec.sum_from] in He.
  - injection He as <-. exact Ht.
  - destruct (Dec.mul h r) as [p|e] eqn:Ep; [|discriminate He].
    rewrite bind_Ok in He.
    destruct (Dec.add total p) as [total'|e] eqn:Ea; [|discriminate He].
    rewrite bind_Ok in He.
    apply (IH total' d); [|exact He].
    apply (add_nonnegative total p); [exact Ht | | exact Ea].
    apply (mul_positive h r); assumption.
Qed.

Lemma zip_positive (hours rates : list decimal) :
  Forall positive hours -> Forall positive rates ->
  Forall (fun hr => positive (fst hr) /\ positive (snd hr)) (zip hours rates).
Proof.
  intros Hh. revert rates.
  induction Hh as [|h hours Hh _ IH]; intros rates Hr; [constructor|].
  destruct Hr as [|r rates Hr Hrs]; [constructor|].
  cbn. constructor; [split; assumption | apply IH, Hrs].
Qed.

(** What [create_pay_record] accepts. *)
Lemma create_pay_record_accepts (employee_id : Z) (hours rates : list decimal)
    (visa : option string) (ytd : option decimal) (record : RefactorDec.PayRecord) :
  RefactorDec.create_pay_record employee_id hours rates visa ytd = Ok record ->
  Forall positive hours /\ Forall positive rates /\
  record = match visa with
           | Some v =>
               if truthy v
               then RefactorDec.WorkingHolidayPayRecord employee_id hours rates v ytd
               else RefactorDec.ResidentPayRecord employee_id hours rates
           | None => RefactorDec.ResidentPayRecord employee_id hours rates
           end.
Proof.
  unfold RefactorDec.create_pay_record. intros H.
  destruct (RefactorDec.any_nonpositive hours) as [[|]|e] eqn:Eh;
    try discriminate H.
  rewrite bind_Ok in H.
  destruct (RefactorDec.any_nonpositive rates) as [[|]|e] eqn:Er;
    try discriminate H.
  rewrite bind_Ok in H.
  apply any_nonpositive_false in Eh, Er.
  repeat split; try assumption.
  destruct visa as [v|]; [destruct (truthy v)|]; congruence.
Qed.

(** *** The first resident band under the rounding *)

Lemma rounded_0_19 : Dec.rounded 0.19 == 0.19.
Proof. vm_compute. reflexivity. Qed.

Lemma rounded_minus_0_19 : Dec.rounded (- 0.19) == - 0.19.
Proof. vm_compute. reflexivity. Qed.

Lemma rounded_1 : Dec.rounded 1 == 1.
Proof. vm_compute. reflexivity. Qed.

Lemma rounded_below_0_19 :
  Dec.rounded (0.19 * 0.9999999999999999999999999997)
  == 0.1899999999999999999999999999.
Proof. vm_compute. reflexivity. Qed.

Lemma rounded_last_place :
  Dec.rounded (- 0.0000000000000000000000000001)
  == - 0.0000000000000000000000000001.
Proof. vm_compute. reflexivity. Qed.

Lemma half_last_place :
  (1 # 2) * Dec.pow10 (- Dec.prec) == 0.00000000000000000000000000005.
Proof. vm_compute. reflexivity. Qed.

Lemma resident_product_bounds (i : Q) :
  0 <= i -> i < 1 ->
  0 <= Dec.rounded (0.19 * i) <= 0.19.
Proof.
  intros H0 H1. split.
  - apply rounded_nonneg. lra.
  - pose proof (rounded_le (0.19 * i) 0.19) as Hle.
    pose proof rounded_0_19 as Hc. lra.
Qed.

Lemma resident_tax_bounds (i : Q) :
  0 <= i -> i < 1 ->
  - 0.19 <= Dec.rounded (Dec.rounded (0.19 * i) - 0.19) <= 0.
Proof.
  intros H0 H1. destruct (resident_product_bounds i H0 H1) as [Hlo Hhi]. split.
  - pose proof (rounded_le (- 0.19) (Dec.rounded (0.19 * i) - 0.19)) as Hle.
    pose proof rounded_minus_0_19 as Hc. lra.
  - apply rounded_nonpos. lra.
Qed.

Lemma resident_tax_small (i : Q) :
  0 <= i -> i < 1 ->
  RefactorDec.calculate_tax (Refactor.mkTaxCalculator RESIDENT_TAX_BRACKETS) (Fin i)
  = Ok (Fin (Dec.rounded (Dec.rounded (0.19 * i) - 0.19))).
Proof.
  intros H0 H1. destruct (resident_product_bounds i H0 H1) as [Hlo Hhi].
  unfold RefactorDec.calculate_tax. cbn [Refactor._tax_brackets].
  rewrite calculate_tax_loop_Fin.
  assert (Hb : in_bracket i (mkTaxBracket 0 (finite 72) 0.19 0.19) = true).
  { apply in_bracket_true. split; simpl; lra. }
  unfold RESIDENT_TAX_BRACKETS. cbn [List.find]. rewrite Hb.
  unfold RefactorDec.tax_of_bracket. cbn [rates fixed_amount].
  rewrite mul_Fin, fix_small by (apply Qabs_Qlt_condition; lra).
  rewrite !bind_Ok, sub_Fin, fix_small by (apply Qabs_Qlt_condition; lra).
  reflexivity.
Qed.

Lemma resident_tax_last_place (i : Q) :
  i <= 0.9999999999999999999999999997 ->
  Dec.rounded (0.19 * i) <= 0.1899999999999999999999999999 /\
  Dec.rounded (Dec.rounded (0.19 * i) - 0.19) <= - 0.0000000000000000000000000001.
Proof.
  intros Hi.
  assert (Hp : Dec.rounded (0.19 * i) <= 0.1899999999999999999999999999).
  { pose proof (rounded_le (0.19 * i) (0.19 * 0.9999999999999999999999999997)) as Hle.
    pose proof rounded_below_0_19 as Hc. lra. }
  split; [exact Hp|].
  pose proof (rounded_le (Dec.rounded (0.19 * i) - 0.19)
                (- 0.0000000000000000000000000001)) as Hle.
  pose proof rounded_last_place as Hc. lra.
Qed.

(** C10 (amended). A resident record that [create_pay_record] accepts
    (its hours and rates are above zero) and whose income is below 1 has
    an income at or above 0 and a tax at or below 0: the tax is
    [0.19 * income - 0.19], each of the two operations rounded to 28
    digits.  When the income is at most 0.9999999999999999999999999997
    the tax is negative and the net exceeds the income. *)
Theorem resident_tax_negative_below_one (id : Z) (hours rates : list decimal)
    (record : RefactorDec.PayRecord) (i : Decimal) :
  RefactorDec.create_pay_record id hours rates None None = Ok record ->
  RefactorDec.income record = Ok (Fin i) ->
  i < 1 ->
  record = RefactorDec.ResidentPayRecord id hours rates /\
  Forall positive hours /\ Forall positive rates /\
  0 <= i /\
  exists t n,
    RefactorDec.tax record = Ok (Fin t) /\
    t == Dec.rounded (Dec.rounded (0.19 * i) - 0.19) /\
    RefactorDec.net record = Ok (Fin n) /\
    n == Dec.rounded (i - t) /\
    t <= 0 /\
    (i <= 0.9999999999999999999999999997 -> t < 0 /\ i < n).
Proof.
  intros Hc Hi H1.
  apply create_pay_record_accepts in Hc. destruct Hc as (Hh & Hr & ->).
  assert (H0 : 0 <= i).
  { unfold RefactorDec.income, RefactorDec.sum_products in Hi.
    cbn [RefactorDec.ResidentPayRecord RefactorDec._hours RefactorDec._rates
         RefactorDec.variant_of] in Hi.
    destruct (RefactorDec.sum_from (Fin 0) (zip hours rates)) as [s|e] eqn:Es;
      [|discriminate Hi].
    rewrite bind_Ok in Hi. injection Hi as ->.
    apply (sum_from_nonnegative _ (zip_positive _ _ Hh Hr) (Fin 0) (Fin i));
      [cbn; lra | exact Es]. }
  repeat split; try assumption.
  pose proof (resident_tax_small i H0 H1) as Htax.
  destruct (resident_tax_bounds i H0 H1) as [Htlo Hthi].
  set (t := Dec.rounded (Dec.rounded (0.19 * i) - 0.19)) in *.
  assert (Ht : RefactorDec.tax (RefactorDec.ResidentPayRecord id hours rates)
               = Ok (Fin t)).
  { unfold RefactorDec.tax. rewrite Hi, bind_Ok. exact Htax. }
  assert (Hn : RefactorDec.net (RefactorDec.ResidentPayRecord id hours rates)
               = Ok (Fin (Dec.rounded (i - t)))).
  { unfold RefactorDec.net. rewrite Hi, bind_Ok, Ht, bind_Ok.
    rewrite sub_Fin, fix_small by (apply Qabs_Qlt_condition; lra).
    reflexivity. }
  exists t, (Dec.rounded (i - t)).
  repeat split; try assumption; try reflexivity.
  - (* the tax is negative *)
    rename H into Hthreshold.
    destruct (resident_tax_last_place i Hthreshold) as [_ Hlast].
    fold t in Hlast. lra.
  - (* the net exceeds the income *)
    rename H into Hthreshold.
    destruct (resident_tax_last_place i Hthreshold) as [_ Hlast].
    fold t in Hlast.
    destruct (Qlt_le_dec (i - t) 1) as [Hsmall | Hlarge].
    + assert (Habs : Qabs (i - t) < 1) by (apply Qabs_Qlt_condition; lra).
      pose proof (rounded_error (i - t) Habs) as Herr.
      pose proof half_last_place as Hhalf.
      apply Qabs_Qle_condition in Herr. lra.
    + pose proof (rounded_le 1 (i - t) Hlarge) as Hge.
      pose proof rounded_1 as Hone. lra.
Qed.

Lemma resident_tax_negative_below_one_witness :
  exists record i t n,
    RefactorDec.create_pay_record 7 [Fin 0.5] [Fin 1] None None = Ok record /\
    RefactorDec.income record = Ok (Fin i) /\ i == 0.5 /\
    RefactorDec.tax record = Ok (Fin t) /\ t == - 0.095 /\
    RefactorDec.net record = Ok (Fin n) /\ n == 0.595 /\
    t < 0 /\ i < n.
Proof.
  destruct (resident_tax_negative_below_one 7 [Fin 0.5] [Fin 1]
              (RefactorDec.ResidentPayRecord 7 [Fin 0.5] [Fin 1])
              0.5000000000000000000000000000)
    as (_ & _ & _ & _ & t & n & Ht & Het & Hn & Hen & _ & Hneg);
    [vm_compute; reflexivity | vm_compute; reflexivity | reflexivity |].
  exists (RefactorDec.ResidentPayRecord 7 [Fin 0.5] [Fin 1]),
         0.5000000000000000000000000000, t, n.
  destruct Hneg as [Hlt Hgt]; [discriminate|].
  assert (Hvalue : t == - 0.095).
  { apply (Qeq_trans _ _ _ Het). vm_compute. reflexivity. }
  repeat split; try assumption; try reflexivity.
  apply (Qeq_trans _ _ _ Hen).
  apply (Qeq_trans _ (Dec.rounded (0.5 - - 0.095))).
  - apply rounded_comp. lra.
  - vm_compute. reflexivity.
Defined.

(** C10, the claim on every income below 1: with hours
    [0.9999999999999999999999999999] (or [...9998]) and rates [1] the
    record is accepted and its income is below 1, but [0.19 * income]
    rounds to 0.19: the tax is zero, not negative, and the net is the
    income. *)
Lemma resident_tax_zero_below_one :
  Forall (fun hour =>
            exists record i t n,
              RefactorDec.create_pay_record 7 [Fin hour] [Fin 1] None None
              = Ok record /\
              RefactorDec.income record = Ok (Fin i) /\ i == hour /\ i < 1 /\
              RefactorDec.tax record = Ok (Fin t) /\ t == 0 /\ ~ t < 0 /\
              RefactorDec.net record = Ok (Fin n) /\ n == i /\ ~ i < n)
         [0.9999999999999999999999999999; 0.9999999999999999999999999998].
Proof.
  repeat constructor; eexists _, _, _, _;
    (split; [vm_compute; reflexivity|]);
    (split; [vm_compute; reflexivity|]);
    (split; [vm_compute; reflexivity|]);
    (split; [vm_compute; reflexivity|]);
    (split; [vm_compute; reflexivity|]);
    (split; [vm_compute; reflexivity|]);
    (split; [vm_compute; discriminate|]);
    (split; [vm_compute; reflexivity|]);
    (split; [vm_compute; reflexivity|]);
    vm_compute; discriminate.
Qed.

(** ** Reading and extending a record *)







(** ** The working holiday regime in the first iteration and in the refactors *)

(** C1. In [pay_records.py] the band of a working holiday record is the
    first one that holds the year to date (the prior year to date plus
    the gross of the period), the tax is the rate of that band times the
    gross of the period, and the net is that gross minus the tax: with
    prior year to date 36000, hours [100] and rates [30] the band is
    (37000, 90000, 0.32), the tax 960 and the net 2040, as claimed.
    [pay_records_refactor.py] and [pay_records_refactor_2.py] depart from
    it: there the income of the record is the prior year to date plus
    the gross, the tax is the rate of the band times that income, and the
    net is that income minus the tax, 12480 and 26520 on the same
    record. *)
Theorem working_holiday_tax_base :
  (forall (id : Z) (hs rs : list Decimal) (visa : string) (ytd : Decimal),
      let record := Original.WorkingHolidayPayRecord id hs rs visa ytd in
      let gross := sum_products hs rs in
      Original.gross record = gross /\
      ((exists b,
           List.find (in_bracket (ytd + gross)) WORKING_HOLIDAY_TAX_BRACKETS = Some b /\
           Original.tax record = Some (rates b * gross) /\
           Original.net record = Ok (gross - rates b * gross))
       \/ (List.find (in_bracket (ytd + gross)) WORKING_HOLIDAY_TAX_BRACKETS = None /\
           Original.tax record = None)))
  /\ (forall (id : Z) (visa : string),
        let record := Original.WorkingHolidayPayRecord id [100] [30] visa 36000 in
        exists t n,
          List.find (in_bracket (Original.year_to_date 36000 record))
            WORKING_HOLIDAY_TAX_BRACKETS
          = Some (mkTaxBracket 37000 (finite 90000) 0.32 0.0) /\
          Original.tax record = Some t /\ t == 960 /\
          Original.net record = Ok n /\ n == 2040)
  /\ (forall (id : Z) (hs rs : list Decimal) (visa : string) (ytd : Decimal),
        let record :=
          Refactor.WorkingHolidayPayRecord id hs rs visa (Some ytd) in
        let income := ytd + sum_products hs rs in
        Refactor.income record = Ok income /\
        ((exists b,
             List.find (in_bracket income) WORKING_HOLIDAY_TAX_BRACKETS = Some b /\
             Refactor.tax record = Ok (rates b * income - fixed_amount b) /\
             fixed_amount b == 0 /\
             Refactor.net record = Ok (income - (rates b * income - fixed_amount b)))
         \/ (List.find (in_bracket income) WORKING_HOLIDAY_TAX_BRACKETS = None /\
             Refactor.tax record
             = Raise (ValueError (No_suitable_tax_bracket income)))))
  /\ (forall (id : Z) (visa : string),
        let record :=
          Refactor.WorkingHolidayPayRecord id [100] [30] visa (Some 36000) in
        exists t n,
          Refactor.tax record = Ok t /\ t == 12480 /\
          Refactor.net record = Ok n /\ n == 26520).
Proof.
  split; [| split; [| split]].
  - intros id hs rs visa ytd record gross.
    split; [reflexivity|].
    unfold Original.tax, Original.net, Original.tax. simpl.
    change (Original.year_to_date ytd record) with (ytd + gross).
    change (Original.gross record) with gross.
    unfold WORKING_HOLIDAY_TAX_BRACKETS. simpl.
    unfold Original.year_to_date.
    change (Original.gross record) with gross.
    repeat match goal with
           | |- context [in_bracket ?x ?b] => destruct (in_bracket x b)
           end;
      first [ left; eexists; repeat split; reflexivity
            | right; split; reflexivity ].
  - intros id visa record. eexists _, _. repeat split; reflexivity.
  - intros id hs rs visa ytd record income.
    split; [reflexivity|].
    unfold Refactor.tax, Refactor.net, Refactor.tax, Refactor.calculate_tax. simpl.
    fold income. unfold WORKING_HOLIDAY_TAX_BRACKETS. simpl.
    repeat match goal with
           | |- context [in_bracket ?x ?b] => destruct (in_bracket x b)
           end;
      first [ left; eexists; repeat split; reflexivity
            | right; split; reflexivity ].
  - intros id visa record. eexists _, _. repeat split; reflexivity.
Qed.

(** C1, on the refactored record: with prior year to date 36000, hours
    [100] and rates [30] its tax is not 960 and its net is not 2040. *)
Lemma working_holiday_refactor_not_current_gross :
  exists t n,
    Refactor.tax (Refactor.WorkingHolidayPayRecord 1 [100] [30] "417" (Some 36000))
    = Ok t /\
    Refactor.net (Refactor.WorkingHolidayPayRecord 1 [100] [30] "417" (Some 36000))
    = Ok n /\
    ~ t == 960 /\ ~ n == 2040.
Proof.
  eexists _, _. repeat split; try reflexivity; intros H; vm_compute in H; discriminate H.
Qed.

(** ** The aggregation of rows in [_read_records] *)

Section Aggregation.

Import Refactor.

Variable int_of_str : string -> option Z.
Variable Decimal_of_str : string -> option Decimal.

Lemma create_fields (employee_id : Z) (hs rs : list Decimal)
    (visa year_to_date : option string) (record : PayRecord) :
  Refactor2.create Decimal_of_str employee_id hs rs visa year_to_date = Ok record ->
  _id record = employee_id /\ _hours record = hs /\ _rates record = rs.
Proof.
  unfold Refactor2.create.
  destruct visa as [v|], year_to_date as [y|];
    try (intros [= <-]; repeat split).
  destruct (truthy v && truthy y).
  - destruct (to_Decimal Decimal_of_str y); simpl; intros [= <-]; repeat split.
  - intros [= <-]; repeat split.
Qed.

Lemma create_star_fields (employee_id : Z) (hs rs : list Decimal)
    (rest : list string) (record : PayRecord) :
  Refactor2.create_star Decimal_of_str employee_id hs rs rest = Ok record ->
  _id record = employee_id /\ _hours record = hs /\ _rates record = rs.
Proof.
  destruct rest as [|v [|y [|z rest]]]; unfold Refactor2.create_star;
    first [apply create_fields | discriminate].
Qed.

Lemma read_row_fields (row : list string) (e : entry) :
  read_row int_of_str Decimal_of_str row = Ok e ->
  (3 <= length row)%nat /\
  _id (entry_record e) = entry_id e /\
  _hours (entry_record e) = entry_hours e /\
  _rates (entry_record e) = entry_rates e.
Proof.
  destruct row as [|c0 [|c1 [|c2 rest]]]; simpl; try discriminate.
  destruct (to_int int_of_str c0) as [employee_id|]; simpl; try discriminate.
  destruct (comprehension _ (split "," c1)) as [hs|]; simpl; try discriminate.
  destruct (comprehension _ (split "," c2)) as [rs|]; simpl; try discriminate.
  destruct (Refactor2.create_star _ _ _ _ _) as [record|] eqn:Hc; simpl;
    try discriminate.
  intros [= <-]. simpl. split; [lia | exact (create_star_fields _ _ _ _ _ Hc)].
Qed.

Lemma loop_body_merge (records : gmap Z PayRecord) (row : list string) (e : entry) :
  read_row int_of_str Decimal_of_str row = Ok e ->
  Refactor2.loop_body int_of_str Decimal_of_str records row = Ok (merge records e).
Proof.
  destruct row as [|c0 [|c1 [|c2 rest]]]; simpl; try discriminate.
  unfold merge.
  destruct (to_int int_of_str c0) as [employee_id|]; simpl; try discriminate.
  destruct (comprehension _ (split "," c1)) as [hs|]; simpl; try discriminate.
  destruct (comprehension _ (split "," c2)) as [rs|]; simpl; try discriminate.
  destruct (Refactor2.create_star _ _ _ _ _) as [record|] eqn:Hc; simpl;
    try discriminate.
  intros [= <-]. cbn [entry_id entry_hours entry_rates entry_record].
  destruct (records !! employee_id); reflexivity.
Qed.

Lemma read_loop_merge (rows : list (list string)) (entries : list entry) :
  Forall2 (fun row e => read_row int_of_str Decimal_of_str row = Ok e) rows entries ->
  forall records : gmap Z PayRecord,
    Refactor2.read_loop int_of_str Decimal_of_str rows records
    = (fold_left merge entries records, None).
Proof.
  induction 1 as [|row e rows entries Hrow _ IH]; intros records; simpl.
  - reflexivity.
  - rewrite (loop_body_merge _ _ _ Hrow). apply IH.
Qed.

Lemma yield_rows_all (rows : list (list string)) :
  Forall (fun row => (3 <= length row)%nat) rows ->
  yield_rows rows = (rows, None).
Proof.
  induction 1 as [|row rows Hrow _ IH]; simpl; [reflexivity|].
  unfold MIN_COLUMN_VAL.
  destruct (Nat.ltb_spec (length row) 3); [lia|].
  rewrite IH. reflexivity.
Qed.

Lemma extended_extended (record : PayRecord) (e : entry) (later : list entry) :
  extended (add_rates (add_hours record (entry_hours e)) (entry_rates e)) later
  = extended record (e :: later).
Proof.
  unfold extended, add_rates, add_hours. simpl.
  rewrite <- !app_assoc. reflexivity.
Qed.

(** The dict after a sequence of valid rows, one employee id at a time. *)
Lemma fold_merge_lookup (entries : list entry) (id : Z) :
  Forall (fun e => _id (entry_record e) = entry_id e) entries ->
  forall records : gmap Z PayRecord,
    fold_left merge entries records !! id
    = match records !! id with
      | Some record =>
          Some (extended record
                  (List.filter (fun e => (entry_id e =? id)%Z) entries))
      | None =>
          match List.filter (fun e => (entry_id e =? id)%Z) entries with
          | [] => None
          | first :: later => Some (extended (entry_record first) later)
          end
      end.
Proof.
  induction 1 as [|e entries He _ IH]; intros records; simpl.
  - destruct (records !! id) as [record|]; [|reflexivity].
    unfold extended. simpl. rewrite !app_nil_r. destruct record; reflexivity.
  - rewrite IH. unfold merge.
    destruct (Z.eqb_spec (entry_id e) id) as [-> | Hne].
    + destruct (records !! id) as [record|] eqn:Hid.
      * rewrite lookup_insert_eq, extended_extended. reflexivity.
      * rewrite lookup_insert_eq. reflexivity.
    + destruct (records !! entry_id e); rewrite lookup_insert_ne by exact Hne;
        reflexivity.
Qed.

(** C7. For a file whose rows are all valid, [_read_records] returns a
    dict that holds, for every employee id, the record the factory made
    of the first row with that id, whose hours and rates are followed by
    those of the later rows with the id, in the order of the file; its
    id, its tax calculator and the fields of its kind (visa and year to
    date) are those given at creation. *)
Theorem aggregation_creates_then_appends (header : list string)
    (rows : list (list string)) (entries : list entry) :
  Forall2 (fun row e => read_row int_of_str Decimal_of_str row = Ok e) rows entries ->
  exists records : gmap Z PayRecord,
    Refactor2._read_records int_of_str Decimal_of_str (Some (header :: rows))
    = (records, None)
    /\ forall id : Z, records !! id = aggregated id entries.
Proof.
  intros Hrows.
  exists (fold_left merge entries ∅). split.
  - unfold Refactor2._read_records, Refactor2.read_pay_records. simpl.
    rewrite yield_rows_all.
    + rewrite (read_loop_merge _ _ Hrows). reflexivity.
    + clear -Hrows. induction Hrows as [|row e rows entries Hrow _ IH];
        constructor; [apply (read_row_fields _ _ Hrow) | exact IH].
  - intros id.
    assert (Hids : Forall (fun e => _id (entry_record e) = entry_id e
                                    /\ _hours (entry_record e) = entry_hours e
                                    /\ _rates (entry_record e) = entry_rates e)
                     entries).
    { clear -Hrows. induction Hrows as [|row e rows entries Hrow _ IH];
        constructor; [apply (read_row_fields _ _ Hrow) | exact IH]. }
    rewrite fold_merge_lookup
      by (eapply Forall_impl; [exact Hids|]; intros e He; apply He).
    rewrite lookup_empty. unfold aggregated.
    pose proof (proj1 (Forall_forall _ _) Hids) as Hin.
    destruct (List.filter _ entries) as [|first later] eqn:Hf; [reflexivity|].
    assert (Hfirst : In first (List.filter (fun e => (entry_id e =? id)%Z) entries))
      by (rewrite Hf; left; reflexivity).
    apply filter_In in Hfirst. destruct Hfirst as [Hmem Heq].
    apply Z.eqb_eq in Heq.
    destruct (Hin first) as (H1 & H2 & H3).
    { apply list_elem_of_In. exact Hmem. }
    unfold extended. simpl. rewrite H1, H2, H3, Heq. reflexivity.
Qed.

End Aggregation.

Lemma aggregation_creates_then_appends_witness :
  let rows := [ ["1"; "8"; "20"; "417"; "1000"];
                ["2"; "5"; "30"];
                ["1"; "4,6"; "22,23"; ""; ""] ]%string in
  let entries :=
    [ mkEntry 1 [8] [20] (Refactor.WorkingHolidayPayRecord 1 [8] [20] "417" (Some 1000));
      mkEntry 2 [5] [30] (Refactor.ResidentPayRecord 2 [5] [30]);
      mkEntry 1 [4; 6] [22; 23] (Refactor.ResidentPayRecord 1 [4; 6] [22; 23]) ] in
  exists records : gmap Z Refactor.PayRecord,
    Refactor2._read_records Literal.int_of_str Literal.Decimal_of_str
      (Some (["id"; "hours"; "rates"; "visa"; "ytd"]%string :: rows))
    = (records, None)
    /\ forall id : Z, records !! id = aggregated id entries.
Proof.
  intros rows entries.
  apply (aggregation_creates_then_appends Literal.int_of_str Literal.Decimal_of_str).
  repeat constructor.
Defined.

(** ** Rows the driver refuses *)

Section Refused.

Import Refactor.

Variable int_of_str : string -> option Z.
Variable Decimal_of_str : string -> option Decimal.

Lemma yield_rows_stops (before after : list (list string)) (bad : list string) :
  Forall (fun row => (3 <= length row)%nat) before ->
  (length bad < 3)%nat ->
  yield_rows (before ++ bad :: after)
  = (before, Some (ValueError (Row_does_not_contain_columns 3 bad))).
Proof.
  intros Hbefore Hbad.
  induction Hbefore as [|row before Hrow _ IH]; simpl; unfold MIN_COLUMN_VAL.
  - destruct (Nat.ltb_spec (length bad) 3); [reflexivity | lia].
  - destruct (Nat.ltb_spec (length row) 3); [lia|].
    rewrite IH. reflexivity.
Qed.

Lemma except_IndexError_handled {A} (body : result A) (a : A) :
  except_IndexError body (Ok a) <> Raise IndexError.
Proof. destruct body as [a'|[]]; discriminate. Qed.

Lemma comprehension_to_Decimal_raises (xs : list string) (e : exn) :
  comprehension (to_Decimal Decimal_of_str) xs = Raise e -> e = InvalidOperation.
Proof.
  induction xs as [|x xs IH]; cbn [comprehension]; [discriminate|].
  destruct (to_Decimal Decimal_of_str x) as [q|e'] eqn:Hx; simpl.
  - destruct (comprehension _ xs); simpl; [discriminate|].
    intros [= <-]. apply IH. reflexivity.
  - intros [= <-]. unfold to_Decimal in Hx.
    destruct (Decimal_of_str x); congruence.
Qed.

(** On a row of three columns or more the body of the loop does not
    raise [IndexError]: the first three columns are there, and the [try]
    block handles the fourth and the fifth. *)
Lemma loop_body_not_IndexError (combined_records : gmap Z PayRecord)
    (row : list string) :
  (3 <= length row)%nat ->
  loop_body int_of_str Decimal_of_str combined_records row <> Raise IndexError.
Proof.
  destruct row as [|c0 [|c1 [|c2 rest]]]; simpl; try lia. intros _.
  unfold loop_body, index. simpl.
  unfold to_int. destruct (int_of_str c0) as [employee_id|]; simpl; [|discriminate].
  destruct (comprehension _ (split "," c1)) as [hs|e1] eqn:H1; simpl;
    [| apply comprehension_to_Decimal_raises in H1; subst; discriminate].
  destruct (comprehension _ (split "," c2)) as [rs|e2] eqn:H2; simpl;
    [| apply comprehension_to_Decimal_raises in H2; subst; discriminate].
  destruct (visa_and_year_to_date Decimal_of_str (c0 :: c1 :: c2 :: rest))
    as [vy|e3] eqn:H3; simpl.
  - destruct (combined_records !! employee_id); [discriminate|].
    unfold create_pay_record.
    destruct (existsb _ hs); [discriminate|].
    destruct (existsb _ rs); [discriminate|].
    destruct (fst vy) as [v|]; [destruct (truthy v)|]; discriminate.
  - intros [= ->]. revert H3. apply except_IndexError_handled.
Qed.

Lemma main_loop_not_IndexError (rows : list (list string)) :
  Forall (fun row => (3 <= length row)%nat) rows ->
  forall combined_records : gmap Z PayRecord,
    snd (main_loop int_of_str Decimal_of_str rows combined_records)
    <> Some IndexError.
Proof.
  induction 1 as [|row rows Hrow _ IH]; intros combined_records; simpl.
  - discriminate.
  - destruct (loop_body _ _ combined_records row) as [records'|e] eqn:Hbody.
    + apply IH.
    + simpl. intros [= ->]. exact (loop_body_not_IndexError _ _ Hrow Hbody).
Qed.

(** In [pay_records.py] a row of two columns ends the loop. *)
Lemma Original_two_columns (after : list (list string))
    (combined_records : gmap Z Original.PayRecord) (c0 c1 : string) :
  exists e,
    Original.main_loop int_of_str Decimal_of_str ([c0; c1] :: after)
      combined_records
    = (combined_records, Some e)
    /\ (e = IndexError \/ e = ValueError (Invalid_literal c0)
        \/ e = InvalidOperation).
Proof.
  simpl. unfold Original.loop_body, index. simpl.
  unfold to_int. destruct (int_of_str c0) as [employee_id|]; simpl;
    [| eexists; split; [reflexivity | right; left; reflexivity]].
  destruct (comprehension _ (split "," c1)) as [hs|e1] eqn:H1; simpl.
  - eexists; split; [reflexivity | left; reflexivity].
  - apply comprehension_to_Decimal_raises in H1. subst.
    eexists; split; [reflexivity | right; right; reflexivity].
Qed.

(** C4 (amended). In [pay_records_refactor.py] a row with fewer than
    three columns, after rows that have three or more, makes the reader
    raise the "row does not contain 3 columns" error once the rows before
    it have been yielded.  The run then ends with an exception, which is
    not an [IndexError]: that error, unless a row before it has already
    ended the run with its own; the dict is the one the rows before have
    left, and the rows after the short one are never read.  In
    [pay_records.py], which has no test on the columns, the loop raises on
    a row of two columns and leaves the dict as it was: an [IndexError],
    unless the conversion of one of the two columns fails first. *)
Theorem malformed_row_ends_run (header : list string)
    (before after : list (list string)) (bad : list string) :
  Forall (fun row => (3 <= length row)%nat) before ->
  (length bad < 3)%nat ->
  let file := Some (header :: before ++ bad :: after) in
  let refused := ValueError (Row_does_not_contain_columns 3 bad) in
  import_pay_records file = (before, Some refused)
  /\ main int_of_str Decimal_of_str file
     = match main_loop int_of_str Decimal_of_str before ∅ with
       | (combined_records, None) => (combined_records, Some refused)
       | aborted => aborted
       end
  /\ fst (main int_of_str Decimal_of_str file)
     = fst (main_loop int_of_str Decimal_of_str before ∅)
  /\ snd (main int_of_str Decimal_of_str file) <> None
  /\ snd (main int_of_str Decimal_of_str file) <> Some IndexError
  /\ (forall (combined_records : gmap Z Original.PayRecord) (c0 c1 : string),
         exists e,
           Original.main_loop int_of_str Decimal_of_str ([c0; c1] :: after)
             combined_records
           = (combined_records, Some e)
           /\ (e = IndexError \/ e = ValueError (Invalid_literal c0)
               \/ e = InvalidOperation)).
Proof.
  intros Hbefore Hbad file refused.
  assert (Himport : import_pay_records file = (before, Some refused)).
  { simpl. apply yield_rows_stops; assumption. }
  assert (Hmain : main int_of_str Decimal_of_str file
                  = match main_loop int_of_str Decimal_of_str before ∅ with
                    | (combined_records, None) => (combined_records, Some refused)
                    | aborted => aborted
                    end).
  { unfold main. rewrite Himport. reflexivity. }
  pose proof (main_loop_not_IndexError before Hbefore ∅) as Hnot.
  split; [exact Himport|]. split; [exact Hmain|].
  rewrite Hmain.
  destruct (main_loop int_of_str Decimal_of_str before ∅) as [records [e|]];
    simpl in *.
  - repeat split; try discriminate; try exact Hnot.
    apply Original_two_columns.
  - repeat split; try discriminate.
    apply Original_two_columns.
Qed.

End Refused.

Lemma malformed_row_ends_run_witness :
  let header := ["id"; "hours"; "rates"; "visa"; "ytd"]%string in
  let before := [ ["1"; "8"; "20"] ]%string in
  let bad := ["1"; "8"]%string in
  let after := [ ["2"; "8"; "20"] ]%string in
  let file := Some (header :: before ++ bad :: after) in
  let refused := ValueError (Row_does_not_contain_columns 3 bad) in
  Refactor.import_pay_records file = (before, Some refused)
  /\ Refactor.main Literal.int_of_str Literal.Decimal_of_str file
     = match Refactor.main_loop Literal.int_of_str Literal.Decimal_of_str before ∅ with
       | (combined_records, None) => (combined_records, Some refused)
       | aborted => aborted
       end
  /\ fst (Refactor.main Literal.int_of_str Literal.Decimal_of_str file)
     = fst (Refactor.main_loop Literal.int_of_str Literal.Decimal_of_str before ∅)
  /\ snd (Refactor.main Literal.int_of_str Literal.Decimal_of_str file) <> None
  /\ snd (Refactor.main Literal.int_of_str Literal.Decimal_of_str file)
     <> Some IndexError
  /\ (forall (combined_records : gmap Z Original.PayRecord) (c0 c1 : string),
         exists e,
           Original.main_loop Literal.int_of_str Literal.Decimal_of_str
             ([c0; c1] :: after) combined_records
           = (combined_records, Some e)
           /\ (e = IndexError \/ e = ValueError (Invalid_literal c0)
               \/ e = InvalidOperation)).
Proof.
  intros header before bad after.
  apply (malformed_row_ends_run Literal.int_of_str Literal.Decimal_of_str
           header before after bad).
  - repeat constructor.
  - simpl. lia.
Defined.

(** C4, the claim on a file whose first row has two columns: in
    [pay_records_refactor.py] the employee of the row after it is not in
    the dict when the run ends, although that row alone puts it there;
    in [pay_records.py] the loop ends with an [IndexError]. *)
Lemma malformed_row_not_contained :
  let header := ["id"; "hours"; "rates"; "visa"; "ytd"]%string in
  fst (Refactor.main Literal.int_of_str Literal.Decimal_of_str
         (Some [header; ["1"; "8"]; ["2"; "8"; "20"]]%string)) !! 2%Z = None
  /\ snd (Refactor.main Literal.int_of_str Literal.Decimal_of_str
            (Some [header; ["1"; "8"]; ["2"; "8"; "20"]]%string))
     = Some (ValueError (Row_does_not_contain_columns 3 ["1"; "8"]%string))
  /\ fst (Refactor.main Literal.int_of_str Literal.Decimal_of_str
            (Some [header; ["2"; "8"; "20"]]%string)) !! 2%Z
     = Some (Refactor.ResidentPayRecord 2 [8] [20])
  /\ Original.main_loop Literal.int_of_str Literal.Decimal_of_str
       [ ["1"; "8"]; ["2"; "8"; "20"; ""; ""] ]%string ∅
     = (∅, Some IndexError).
Proof. repeat split. Qed.

(** C3, on files the program can read.  In [pay_records_refactor.py] a
    first row with an hour of 0 is refused by [create_pay_record] and the
    dict stays empty, but the same hours, and an hour of -1, on later rows
    of an employee that has a record are appended to it: [add_hours] and
    [add_rates] do not test the sign.  In [pay_records_refactor_2.py] the
    factory does not test it either, and the first row makes a record. *)
Theorem nonpositive_hours_reach_existing_record :
  let header := ["id"; "hours"; "rates"; "visa"; "ytd"]%string in
  Refactor.main Literal.int_of_str Literal.Decimal_of_str
    (Some [header; ["1"; "0"; "20"]]%string)
  = (∅, Some (ValueError Hours_must_be_positive))
  /\ (exists combined_records,
         Refactor.main Literal.int_of_str Literal.Decimal_of_str
           (Some [header; ["1"; "8"; "20"]; ["1"; "0"; "20"]; ["1"; "-1"; "20"]]%string)
         = (combined_records, None)
         /\ combined_records !! 1%Z
            = Some (Refactor.ResidentPayRecord 1 [8; 0; -1] [20; 20; 20]))
  /\ (exists records,
         Refactor2._read_records Literal.int_of_str Literal.Decimal_of_str
           (Some [header; ["1"; "0"; "20"]]%string)
         = (records, None)
         /\ records !! 1%Z = Some (Refactor.ResidentPayRecord 1 [0] [20])).
Proof.
  intros header. split; [reflexivity|].
  split; eexists; split; reflexivity.
Qed.

(** * Further properties of the code *)

(** ** The first iteration against the refactored tax calculator *)

Lemma resident_tax_loop_find (brackets : list TaxBracket) (self : Original.PayRecord) :
  Original.resident_tax_loop brackets self
  = (fun b => rates b * Original.gross self - fixed_amount b)
      <$> List.find (in_bracket (Original.gross self)) brackets.
Proof.
  induction brackets as [|b brackets IH]; simpl; [reflexivity|].
  destruct (in_bracket (Original.gross self) b); [reflexivity | exact IH].
Qed.

(** The band that holds an income in a table that splits the incomes
    from [lo] upwards. *)
Lemma Partition_find (lo : Decimal) (table : list TaxBracket) (x : Decimal) :
  Partition lo table ->
  (x < lo -> List.find (in_bracket x) table = None)
  /\ (lo <= x -> exists b, In b table /\ List.find (in_bracket x) table = Some b
                           /\ InBracket x b).
Proof.
  intros Hpart. destruct (Partition_bands lo table Hpart x) as [Hlt Hge].
  rewrite find_head_filter. split; intros Hx.
  - destruct (Hlt Hx) as [-> _]. reflexivity.
  - destruct (Hge Hx) as (b & Hin & Hf & _). exists b.
    rewrite Hf. repeat split; try assumption.
    + assert (Hb : In b (List.filter (in_bracket x) table))
        by (rewrite Hf; left; reflexivity).
      apply filter_In in Hb. apply in_bracket_true, Hb.
    + assert (Hb : In b (List.filter (in_bracket x) table))
        by (rewrite Hf; left; reflexivity).
      apply filter_In in Hb. apply in_bracket_true, Hb.
Qed.

(** X1. On a resident record the refactored [tax] and [net] give what
    the first iteration gives whenever a band holds the income; when no
    band does, the first iteration's [tax] is [None] and its [net] a
    [TypeError], where the refactored ones raise. *)
Theorem resident_tax_kept_by_refactor (id : Z) (hs rs : list Decimal) :
  Original.tax (Original.ResidentPayRecord id hs rs)
  = match Refactor.tax (Refactor.ResidentPayRecord id hs rs) with
    | Ok t => Some t
    | Raise _ => None
    end
  /\ Original.net (Original.ResidentPayRecord id hs rs)
     = match Refactor.net (Refactor.ResidentPayRecord id hs rs) with
       | Ok n => Ok n
       | Raise _ => Raise (TypeError Unsupported_operand)
       end.
Proof.
  unfold Original.net, Original.tax, Refactor.net, Refactor.tax,
    Refactor.calculate_tax.
  cbn [Original.variant_of Original.ResidentPayRecord Refactor.income
       Refactor.variant_of Refactor.ResidentPayRecord Refactor._tax_calculator
       Refactor._tax_brackets Refactor._hours Refactor._rates mbind result_bind].
  rewrite resident_tax_loop_find, calculate_tax_loop_find.
  change (Original.gross (Original.ResidentPayRecord id hs rs))
    with (sum_products hs rs).
  destruct (List.find _ RESIDENT_TAX_BRACKETS); split; reflexivity.
Qed.

(** ** [create_pay_record] over the arithmetic of the [decimal] module *)

(** The scan of [any(x <= 0 for x in xs)] goes past the decimals above
    zero. *)
Lemma any_nonpositive_app_positive (pre rest : list decimal) :
  Forall positive pre ->
  RefactorDec.any_nonpositive (pre ++ rest) = RefactorDec.any_nonpositive rest.
Proof.
  induction 1 as [|x pre Hx _ IH]; [reflexivity|].
  cbn [app RefactorDec.any_nonpositive].
  destruct x as [q | [|] | s]; cbn [positive] in Hx; try contradiction.
  - rewrite Dec_le_Fin, bind_Ok.
    rewrite (proj2 (Qle_bool_false q 0)) by exact Hx. exact IH.
  - exact IH.
Qed.

Lemma any_nonpositive_true (xs : list decimal) :
  RefactorDec.any_nonpositive xs = Ok true <-> first_defect at_most_zero xs.
Proof.
  split.
  - induction xs as [|x xs IH]; cbn [RefactorDec.any_nonpositive];
      [discriminate|].
    destruct x as [q | [|] | s].
    + rewrite Dec_le_Fin, bind_Ok. destruct (Qle_bool q 0) eqn:E.
      * intros _. exists [], (Fin q), xs. apply Qle_bool_true in E.
        repeat split; [constructor | exact E].
      * intros H. destruct (IH H) as (pre & y & post & -> & Hpre & Hy).
        exists (Fin q :: pre), y, post. apply Qle_bool_false in E.
        repeat split; [constructor; assumption | exact Hy].
    + intros _. exists [], (Inf true), xs. repeat split. constructor.
    + intros H. destruct (IH H) as (pre & y & post & -> & Hpre & Hy).
      exists (Inf false :: pre), y, post.
      repeat split; [constructor; [exact I | assumption] | exact Hy].
    + destruct s; discriminate.
  - intros (pre & x & post & -> & Hpre & Hx).
    rewrite (any_nonpositive_app_positive _ _ Hpre).
    cbn [RefactorDec.any_nonpositive].
    destruct x as [q | [|] | s]; cbn [at_most_zero] in Hx; try contradiction.
    + rewrite Dec_le_Fin, bind_Ok.
      rewrite (proj2 (Qle_bool_true q 0)) by exact Hx. reflexivity.
    + reflexivity.
Qed.

Lemma any_nonpositive_raises (xs : list decimal) (e : exn) :
  RefactorDec.any_nonpositive xs = Raise e
  <-> e = InvalidOperation /\ first_defect is_nan xs.
Proof.
  split.
  - induction xs as [|x xs IH]; cbn [RefactorDec.any_nonpositive];
      [discriminate|].
    destruct x as [q | [|] | s].
    + rewrite Dec_le_Fin, bind_Ok. destruct (Qle_bool q 0) eqn:E; [discriminate|].
      intros H. destruct (IH H) as (-> & pre & y & post & -> & Hpre & Hy).
      split; [reflexivity|].
      exists (Fin q :: pre), y, post. apply Qle_bool_false in E.
      repeat split; [constructor; assumption | exact Hy].
    + discriminate.
    + intros H. destruct (IH H) as (-> & pre & y & post & -> & Hpre & Hy).
      split; [reflexivity|].
      exists (Inf false :: pre), y, post.
      repeat split; [constructor; [exact I | assumption] | exact Hy].
    + intros H. assert (He : e = InvalidOperation).
      { destruct s; change (@Raise bool InvalidOperation = Raise e) in H;
          congruence. }
      split; [exact He|].
      exists [], (NaN s), xs. repeat split. constructor.
  - intros (-> & pre & x & post & -> & Hpre & Hx).
    rewrite (any_nonpositive_app_positive _ _ Hpre).
    cbn [RefactorDec.any_nonpositive].
    destruct x as [q | [|] | s]; cbn [is_nan] in Hx; try contradiction.
    destruct s; reflexivity.
Qed.

(** X6. [create_pay_record] returns a record exactly when every hour
    and every rate is above zero (a finite decimal above zero, or
    infinity); the record then has the id, hours and rates given, and is
    a working holiday record when the visa is a non-empty string, a
    resident record otherwise.  Otherwise the first hour that is not
    above zero decides, and with all hours above zero the first such
    rate: at or below zero it gives the hours error (the rates error); a
    NaN makes the comparison raise [InvalidOperation].  No other
    exception is raised. *)
Theorem create_pay_record_cases (employee_id : Z) (hs rs : list decimal)
    (visa : option string) (ytd : option decimal) :
  (forall record,
      RefactorDec.create_pay_record employee_id hs rs visa ytd = Ok record
      <-> Forall positive hs /\ Forall positive rs
          /\ record = match visa with
                      | Some v =>
                          if truthy v
                          then RefactorDec.WorkingHolidayPayRecord employee_id hs rs v ytd
                          else RefactorDec.ResidentPayRecord employee_id hs rs
                      | None => RefactorDec.ResidentPayRecord employee_id hs rs
                      end)
  /\ (RefactorDec.create_pay_record employee_id hs rs visa ytd
      = Raise (ValueError Hours_must_be_positive)
      <-> first_defect at_most_zero hs)
  /\ (RefactorDec.create_pay_record employee_id hs rs visa ytd
      = Raise (ValueError Rates_must_be_positive)
      <-> Forall positive hs /\ first_defect at_most_zero rs)
  /\ (RefactorDec.create_pay_record employee_id hs rs visa ytd
      = Raise InvalidOperation
      <-> first_defect is_nan hs
          \/ (Forall positive hs /\ first_defect is_nan rs))
  /\ (forall e,
        RefactorDec.create_pay_record employee_id hs rs visa ytd = Raise e ->
        e = ValueError Hours_must_be_positive
        \/ e = ValueError Rates_must_be_positive
        \/ e = InvalidOperation).
Proof.
  unfold RefactorDec.create_pay_record.
  pose proof (any_nonpositive_false hs) as Hhf.
  pose proof (any_nonpositive_true hs) as Hht.
  pose proof (any_nonpositive_raises hs) as Hhr.
  pose proof (any_nonpositive_false rs) as Hrf.
  pose proof (any_nonpositive_true rs) as Hrt.
  pose proof (any_nonpositive_raises rs) as Hrr.
  destruct (RefactorDec.any_nonpositive hs) as [[|]|eh].
  - (* an hour at or below zero *)
    assert (Hd : first_defect at_most_zero hs) by (apply Hht; reflexivity).
    assert (Hnp : ~ Forall positive hs)
      by (intros H; apply Hhf in H; discriminate H).
    assert (Hnn : ~ first_defect is_nan hs).
    { intros H. discriminate (proj2 (Hhr InvalidOperation) (conj eq_refl H)). }
    rewrite bind_Ok.
    repeat split; try discriminate; try tauto; intros e' [= <-]; auto.
  - (* every hour above zero *)
    assert (Hp : Forall positive hs) by (apply Hhf; reflexivity).
    assert (Hnd : ~ first_defect at_most_zero hs)
      by (intros H; apply Hht in H; discriminate H).
    assert (Hnn : ~ first_defect is_nan hs).
    { intros H. discriminate (proj2 (Hhr InvalidOperation) (conj eq_refl H)). }
    rewrite bind_Ok.
    destruct (RefactorDec.any_nonpositive rs) as [[|]|er].
    + assert (Hd : first_defect at_most_zero rs) by (apply Hrt; reflexivity).
      assert (Hnp : ~ Forall positive rs)
        by (intros H; apply Hrf in H; discriminate H).
      assert (Hnn' : ~ first_defect is_nan rs).
      { intros H. discriminate (proj2 (Hrr InvalidOperation) (conj eq_refl H)). }
      rewrite bind_Ok.
      repeat split; try discriminate; try tauto; intros e' [= <-]; auto.
    + assert (Hp' : Forall positive rs) by (apply Hrf; reflexivity).
      assert (Hnd' : ~ first_defect at_most_zero rs)
        by (intros H; apply Hrt in H; discriminate H).
      assert (Hnn' : ~ first_defect is_nan rs).
      { intros H. discriminate (proj2 (Hrr InvalidOperation) (conj eq_refl H)). }
      rewrite bind_Ok.
      split.
      * intros record.
        destruct visa as [v|]; [destruct (truthy v)|];
          (split; [intros [= <-]; repeat split; assumption
                  | intros (_ & _ & ->); reflexivity]).
      * repeat split; try tauto;
          try (intros e');
          destruct visa as [v|]; try destruct (truthy v); discriminate.
    + destruct (proj1 (Hrr er) eq_refl) as [-> Hn].
      assert (Hnp : ~ Forall positive rs)
        by (intros H; apply Hrf in H; discriminate H).
      assert (Hnd' : ~ first_defect at_most_zero rs)
        by (intros H; apply Hrt in H; discriminate H).
      repeat split; try discriminate; try tauto; intros e' [= <-]; auto.
  - (* a NaN among the hours *)
    destruct (proj1 (Hhr eh) eq_refl) as [-> Hn].
    assert (Hnp : ~ Forall positive hs)
      by (intros H; apply Hhf in H; discriminate H).
    assert (Hnd : ~ first_defect at_most_zero hs)
      by (intros H; apply Hht in H; discriminate H).
    repeat split; try discriminate; try tauto; intros e' [= <-]; auto.
Qed.

(** ** Accepted records over the arithmetic of the [decimal] module *)

Lemma mul_positive_outcome (a b : decimal) :
  positive a -> positive b ->
  Dec.mul a b = Raise Overflow \/ exists d, Dec.mul a b = Ok d /\ nonnegative d.
Proof.
  intros Ha Hb. destruct (Dec.mul a b) as [d|e] eqn:E.
  - right. exists d. split; [reflexivity|]. apply (mul_positive a b d Ha Hb E).
  - left. destruct a as [x | [|] | sa]; destruct b as [y | [|] | sb];
      cbn [positive] in Ha, Hb; try contradiction.
    + rewrite mul_Fin in E.
      destruct (fix_cases (x * y)) as [E' | E']; rewrite E' in E;
        [discriminate E | symmetry; exact E].
    + cbn [Dec.mul] in E.
      rewrite (proj2 (Qeq_bool_false x 0)) in E by lra. discriminate E.
    + cbn [Dec.mul] in E.
      rewrite (proj2 (Qeq_bool_false y 0)) in E by lra. discriminate E.
    + discriminate E.
Qed.

Lemma add_nonnegative_outcome (a b : decimal) :
  nonnegative a -> nonnegative b ->
  Dec.add a b = Raise Overflow \/ exists d, Dec.add a b = Ok d /\ nonnegative d.
Proof.
  intros Ha Hb. destruct (Dec.add a b) as [d|e] eqn:E.
  - right. exists d. split; [reflexivity|]. apply (add_nonnegative a b d Ha Hb E).
  - left. destruct a as [x | [|] | sa]; destruct b as [y | [|] | sb];
      cbn [nonnegative] in Ha, Hb; try contradiction; try discriminate E.
    rewrite add_Fin in E.
    destruct (fix_cases (x + y)) as [E' | E']; rewrite E' in E;
      [discriminate E | symmetry; exact E].
Qed.

Lemma sum_from_outcome (pairs : list (decimal * decimal)) :
  Forall (fun hr => positive (fst hr) /\ positive (snd hr)) pairs ->
  forall total : decimal,
    nonnegative total ->
    RefactorDec.sum_from total pairs = Raise Overflow
    \/ exists d, RefactorDec.sum_from total pairs = Ok d /\ nonnegative d.
Proof.
  induction 1 as [|[h r] pairs [Hh Hr] _ IH]; intros total Ht;
    cbn [RefactorDec.sum_from].
  - right. exists total. split; [reflexivity | exact Ht].
  - destruct (mul_positive_outcome h r Hh Hr) as [-> | (p & -> & Hp)];
      [left; reflexivity|].
    rewrite bind_Ok.
    destruct (add_nonnegative_outcome total p Ht Hp) as [-> | (total' & -> & Ht')];
      [left; reflexivity|].
    rewrite bind_Ok. apply IH, Ht'.
Qed.

(** X17. A resident record that [create_pay_record] accepts has an
    income at or above zero: a finite one, for which the tax is computed
    (or a rounding overflows), or infinity, for which the tax and the net
    raise the "no suitable tax bracket" error; the sum may also
    overflow, and then the three properties raise [Overflow]. *)
Theorem accepted_resident_record (id : Z) (hs rs : list decimal)
    (record : RefactorDec.PayRecord) :
  RefactorDec.create_pay_record id hs rs None None = Ok record ->
  (RefactorDec.income record = Raise Overflow /\
   RefactorDec.tax record = Raise Overflow /\
   RefactorDec.net record = Raise Overflow)
  \/ (RefactorDec.income record = Ok (Inf false) /\
      RefactorDec.tax record
      = Raise (ValueError (No_suitable_tax_bracket_for (Inf false))) /\
      RefactorDec.net record
      = Raise (ValueError (No_suitable_tax_bracket_for (Inf false))))
  \/ (exists i,
        0 <= i /\
        RefactorDec.income record = Ok (Fin i) /\
        exists b,
          List.find (in_bracket i) RESIDENT_TAX_BRACKETS = Some b /\
          RefactorDec.tax record = RefactorDec.tax_of_bracket b (Fin i) /\
          (RefactorDec.tax record = Raise Overflow
           \/ RefactorDec.tax record
              = Ok (Fin (Dec.rounded (Dec.rounded (rates b * i) - fixed_amount b))))).
Proof.
  intros Hc. apply create_pay_record_accepts in Hc. destruct Hc as (Hh & Hr & ->).
  unfold RefactorDec.net, RefactorDec.tax, RefactorDec.income,
    RefactorDec.sum_products.
  cbn [RefactorDec.ResidentPayRecord RefactorDec._hours RefactorDec._rates
       RefactorDec.variant_of RefactorDec._tax_calculator].
  destruct (sum_from_outcome _ (zip_positive _ _ Hh Hr) (Fin 0))
    as [-> | (d & -> & Hd)]; [cbn; lra | left; repeat split |].
  rewrite !bind_Ok.
  destruct d as [i | [|] | s]; cbn [nonnegative] in Hd; try contradiction.
  - right; right. exists i. split; [exact Hd|]. split; [reflexivity|].
    destruct (Partition_find 0 _ i RESIDENT_TAX_BRACKETS_Partition) as [_ Hge].
    destruct (Hge Hd) as (b & _ & Hfind & _).
    exists b. split; [exact Hfind|].
    unfold RefactorDec.calculate_tax. cbn [Refactor._tax_brackets].
    rewrite calculate_tax_loop_Fin, Hfind. split; [reflexivity|].
    destruct (tax_of_bracket_Fin b i) as [-> | ->]; [right | left]; reflexivity.
  - right; left. repeat split.
Qed.

Lemma accepted_resident_record_witness :
  exists record i t,
    RefactorDec.create_pay_record 1 [Fin 10; Fin 5] [Fin 40; Fin 45] None None
    = Ok record /\
    RefactorDec.income record = Ok (Fin i) /\ i == 625 /\
    RefactorDec.tax record = Ok (Fin t) /\ t == 173.0649.
Proof.
  destruct (accepted_resident_record 1 [Fin 10; Fin 5] [Fin 40; Fin 45]
              (RefactorDec.ResidentPayRecord 1 [Fin 10; Fin 5] [Fin 40; Fin 45]))
    as [(Hi & _) | [(Hi & _) | (i & _ & Hi & _)]];
    [vm_compute; reflexivity | vm_compute in Hi; discriminate Hi
     | vm_compute in Hi; discriminate Hi |].
  eexists _, _, _.
  split; [vm_compute; reflexivity|].
  split; [vm_compute; reflexivity|].
  split; [vm_compute; reflexivity|].
  split; [vm_compute; reflexivity|].
  vm_compute; reflexivity.
Defined.

(** The product of a rate and an income at or above the start of a band,
    less an offset the product at the start covers, does not round below
    zero. *)
Lemma band_tax_nonnegative (rate offset start i : Q) :
  0 <= rate -> offset <= Dec.rounded (rate * start) -> start <= i ->
  0 <= Dec.rounded (Dec.rounded (rate * i) - offset).
Proof.
  intros Hrate Hstart Hi.
  assert (Hle : rate * start <= rate * i).
  { rewrite (Qmult_comm rate start), (Qmult_comm rate i).
    apply Qmult_le_compat_r; assumption. }
  pose proof (rounded_le _ _ Hle) as Hr.
  apply rounded_nonneg. lra.
Qed.

(** X18. On a finite income of 1 or more the tax of the resident table
    is not negative, the two roundings included (unless one
    overflows). *)
Theorem resident_tax_nonnegative_from_one (i : Decimal) :
  1 <= i ->
  RefactorDec.calculate_tax (Refactor.mkTaxCalculator RESIDENT_TAX_BRACKETS) (Fin i)
  = Raise Overflow
  \/ exists t,
       RefactorDec.calculate_tax
         (Refactor.mkTaxCalculator RESIDENT_TAX_BRACKETS) (Fin i)
       = Ok (Fin t) /\ 0 <= t.
Proof.
  intros H1.
  destruct (Partition_find 0 _ i RESIDENT_TAX_BRACKETS_Partition) as [_ Hge].
  destruct Hge as (b & Hin & Hfind & [Hlo _]); [lra|].
  unfold RefactorDec.calculate_tax. cbn [Refactor._tax_brackets].
  rewrite calculate_tax_loop_Fin, Hfind.
  destruct (tax_of_bracket_Fin b i) as [-> | ->]; [right | left; reflexivity].
  eexists. split; [reflexivity|].
  unfold RESIDENT_TAX_BRACKETS in Hin. cbn [In] in Hin.
  destruct Hin as [<- | [<- | [<- | [<- | [<- | [<- | []]]]]]];
    cbn [rates fixed_amount lower_bound] in *.
  - apply (band_tax_nonnegative 0.19 0.19 1 i); [lra | vm_compute; discriminate | lra].
  - apply (band_tax_nonnegative 0.2342 3.213 72 i);
      [lra | vm_compute; discriminate | lra].
  - apply (band_tax_nonnegative 0.3477 44.2476 361 i);
      [lra | vm_compute; discriminate | lra].
  - apply (band_tax_nonnegative 0.345 41.7311 932 i);
      [lra | vm_compute; discriminate | lra].
  - apply (band_tax_nonnegative 0.39 103.8657 1380 i);
      [lra | vm_compute; discriminate | lra].
  - apply (band_tax_nonnegative 0.47 352.788 3111 i);
      [lra | vm_compute; discriminate | lra].
Qed.

Lemma resident_tax_nonnegative_from_one_witness :
  exists t,
    RefactorDec.calculate_tax
      (Refactor.mkTaxCalculator RESIDENT_TAX_BRACKETS) (Fin 1)
    = Ok (Fin t) /\ 0 <= t /\ t == 0.
Proof.
  destruct (resident_tax_nonnegative_from_one 1) as [H | (t & Ht & Hnn)];
    [discriminate | vm_compute in H; discriminate H |].
  exists t. split; [exact Ht|]. split; [exact Hnn|].
  vm_compute in Ht. injection Ht as <-. reflexivity.
Defined.

(** ** The loop of [main] in pay_records_refactor.py *)

Section MainLoop.

Import Refactor.

Variable int_of_str : string -> option Z.
Variable Decimal_of_str : string -> option Decimal.

(** X7. The [try] block of [main] gives no visa and no year to date to
    a row of fewer than five columns, even when its fourth column is a
    recognised visa; it never lets an [IndexError] out, and a visa comes
    out of it only from a fourth column equal to 417 or 462, together
    with a year to date. *)
Theorem visa_and_year_to_date_columns (row : list string) :
  ((length row < 5)%nat ->
   visa_and_year_to_date Decimal_of_str row = Ok (None, None))
  /\ (forall e, visa_and_year_to_date Decimal_of_str row = Raise e ->
                e = InvalidOperation /\ (5 <= length row)%nat)
  /\ (forall visa ytd,
         visa_and_year_to_date Decimal_of_str row = Ok (Some visa, ytd) ->
         row !! 3%nat = Some visa
         /\ (visa = "417"%string \/ visa = "462"%string)
         /\ (5 <= length row)%nat
         /\ exists y, ytd = Some y).
Proof.
  unfold visa_and_year_to_date, index.
  destruct row as [|c0 [|c1 [|c2 [|c3 [|c4 rest]]]]];
    cbn [lookup list_lookup length mbind result_bind except_IndexError];
    try (split; [intros _; reflexivity | split; [discriminate | discriminate]]).
  split; [intros H; simpl in H; lia|].
  assert (Hlen : (5 <= S (S (S (S (S (length rest))))))%nat) by lia.
  unfold to_Decimal.
  destruct (truthy c4); [destruct (Decimal_of_str c4)|];
    cbn [mbind result_bind except_IndexError].
  - split; [discriminate|]. intros visa ytd.
    destruct (String.eqb_spec c3 "417") as [->|]; cbn [orb]; [|destruct (String.eqb_spec c3 "462") as [->|]];
      intros [= <- <-]; eauto 10.
  - split; [intros e [= <-]; split; [reflexivity | exact Hlen] | discriminate].
  - split; [discriminate|]. intros visa ytd.
    destruct (String.eqb_spec c3 "417") as [->|]; cbn [orb]; [|destruct (String.eqb_spec c3 "462") as [->|]];
      intros [= <- <-]; eauto 10.
Qed.

End MainLoop.

Lemma visa_and_year_to_date_columns_witness :
  Refactor.visa_and_year_to_date Literal.Decimal_of_str
    ["7"; "8"; "20"; "417"]%string
  = Ok (None, None).
Proof.
  apply (proj1 (visa_and_year_to_date_columns Literal.Decimal_of_str
                  ["7"; "8"; "20"; "417"]%string)).
  simpl. lia.
Defined.

Section MainLoopInvariants.

Import Refactor.

Variable int_of_str : string -> option Z.
Variable Decimal_of_str : string -> option Decimal.

Lemma visa_and_year_to_date_raises (row : list string) (e : exn) :
  visa_and_year_to_date Decimal_of_str row = Raise e -> e = InvalidOperation.
Proof.
  unfold visa_and_year_to_date, index.
  destruct row as [|c0 [|c1 [|c2 [|c3 [|c4 rest]]]]];
    cbn [lookup list_lookup mbind result_bind except_IndexError];
    try discriminate.
  unfold to_Decimal.
  destruct (truthy c4); [destruct (Decimal_of_str c4)|];
    cbn [mbind result_bind except_IndexError]; try discriminate.
  intros [= <-]. reflexivity.
Qed.

(** What a turn of the loop that does not raise has done to the dict. *)
Lemma loop_body_Ok (combined_records combined_records' : gmap Z PayRecord)
    (row : list string) :
  loop_body int_of_str Decimal_of_str combined_records row = Ok combined_records' ->
  exists (employee_id : Z) (hs rs : list Decimal),
    (combined_records !! employee_id = None
     /\ exists visa ytd record,
         create_pay_record employee_id hs rs visa ytd = Ok record
         /\ combined_records' = <[employee_id := record]> combined_records)
    \/ (exists record,
           combined_records !! employee_id = Some record
           /\ combined_records'
              = <[employee_id := add_rates (add_hours record hs) rs]>
                  combined_records).
Proof.
  unfold loop_body.
  destruct (index row 0) as [r0|]; cbn [mbind result_bind]; [|discriminate].
  destruct (to_int int_of_str r0) as [employee_id|]; cbn [mbind result_bind];
    [|discriminate].
  destruct (index row 1) as [r1|]; cbn [mbind result_bind]; [|discriminate].
  destruct (comprehension _ (split "," r1)) as [hs|]; cbn [mbind result_bind];
    [|discriminate].
  destruct (index row 2) as [r2|]; cbn [mbind result_bind]; [|discriminate].
  destruct (comprehension _ (split "," r2)) as [rs|]; cbn [mbind result_bind];
    [|discriminate].
  destruct (visa_and_year_to_date Decimal_of_str row) as [vy|];
    cbn [mbind result_bind]; [|discriminate].
  intros Hok. exists employee_id, hs, rs.
  destruct (combined_records !! employee_id) as [record|] eqn:Hid.
  - injection Hok as <-. right. exists record. split; reflexivity.
  - destruct (create_pay_record employee_id hs rs (fst vy) (snd vy))
      as [record|] eqn:Hc; cbn [mbind result_bind] in Hok; [|discriminate].
    injection Hok as <-. left. split; [reflexivity|].
    exists (fst vy), (snd vy), record. split; [exact Hc | reflexivity].
Qed.

Lemma create_pay_record_raises (employee_id : Z) (hs rs : list Decimal)
    (visa : option string) (ytd : option Decimal) (e : exn) :
  create_pay_record employee_id hs rs visa ytd = Raise e ->
  e = ValueError Hours_must_be_positive \/ e = ValueError Rates_must_be_positive.
Proof.
  unfold create_pay_record.
  destruct (existsb _ hs); [intros [= <-]; left; reflexivity|].
  destruct (existsb _ rs); [intros [= <-]; right; reflexivity|].
  destruct visa as [v|]; [destruct (truthy v)|]; discriminate.
Qed.

Lemma create_pay_record_id (employee_id : Z) (hs rs : list Decimal)
    (visa : option string) (ytd : option Decimal) (record : PayRecord) :
  create_pay_record employee_id hs rs visa ytd = Ok record ->
  _id record = employee_id.
Proof.
  unfold create_pay_record.
  destruct (existsb _ hs); [discriminate|].
  destruct (existsb _ rs); [discriminate|].
  destruct visa as [v|]; [destruct (truthy v)|]; intros [= <-]; reflexivity.
Qed.

Lemma loop_body_raises (combined_records : gmap Z PayRecord)
    (row : list string) (e : exn) :
  (3 <= length row)%nat ->
  loop_body int_of_str Decimal_of_str combined_records row = Raise e ->
  row_defect e.
Proof.
  destruct row as [|c0 [|c1 [|c2 rest]]]; simpl; try lia. intros _.
  unfold loop_body, index, row_defect.
  cbn [lookup list_lookup mbind result_bind].
  unfold to_int at 1.
  destruct (int_of_str c0) as [employee_id|]; cbn [mbind result_bind];
    [| intros [= <-]; left; eexists; reflexivity].
  destruct (comprehension _ (split "," c1)) as [hs|e1] eqn:H1;
    cbn [mbind result_bind];
    [| apply comprehension_to_Decimal_raises in H1; subst;
       intros [= <-]; right; left; reflexivity].
  destruct (comprehension _ (split "," c2)) as [rs|e2] eqn:H2;
    cbn [mbind result_bind];
    [| apply comprehension_to_Decimal_raises in H2; subst;
       intros [= <-]; right; left; reflexivity].
  destruct (visa_and_year_to_date Decimal_of_str (c0 :: c1 :: c2 :: rest))
    as [vy|e3] eqn:H3; cbn [mbind result_bind];
    [| apply visa_and_year_to_date_raises in H3; subst;
       intros [= <-]; right; left; reflexivity].
  destruct (combined_records !! employee_id); [discriminate|].
  destruct (create_pay_record employee_id hs rs (fst vy) (snd vy))
    as [record|e4] eqn:H4; cbn [mbind result_bind]; [discriminate|].
  intros [= <-]. right; right. exact (create_pay_record_raises _ _ _ _ _ _ H4).
Qed.

Lemma main_loop_raises (rows : list (list string)) (e : exn) :
  Forall (fun row => (3 <= length row)%nat) rows ->
  forall combined_records : gmap Z PayRecord,
    snd (main_loop int_of_str Decimal_of_str rows combined_records) = Some e ->
    row_defect e.
Proof.
  induction 1 as [|row rows Hrow _ IH]; intros combined_records; simpl.
  - discriminate.
  - destruct (loop_body _ _ combined_records row) as [records'|e'] eqn:Hbody.
    + apply IH.
    + simpl. intros [= <-]. exact (loop_body_raises _ _ _ Hrow Hbody).
Qed.

Lemma yield_rows_yielded (data : list (list string)) :
  Forall (fun row => (3 <= length row)%nat) (fst (yield_rows data))
  /\ (snd (yield_rows data) = None
      \/ exists row, (length row < 3)%nat
                     /\ snd (yield_rows data)
                        = Some (ValueError (Row_does_not_contain_columns 3 row))).
Proof.
  induction data as [|row data [IHrows IHstop]]; simpl.
  - split; [constructor | left; reflexivity].
  - unfold MIN_COLUMN_VAL. destruct (Nat.ltb_spec (length row) 3) as [Hlt|Hge].
    + split; [constructor | right; exists row; split; [exact Hlt | reflexivity]].
    + destruct (yield_rows data) as [rows stopped]. simpl in *.
      split; [constructor; assumption | exact IHstop].
Qed.

(** X8. On a file that opens, or that [open] refuses with
    [FileNotFoundError] or [PermissionError], and whose rows the csv
    reader delivers without an error of its own, the exceptions that can
    end [main] before the export are: a [RuntimeError] on a file without
    a header row, the "3 columns" error of the reader on a row of fewer
    than three columns, or, from a data row, the error of [int], of
    [Decimal] (also raised by the comparison of a NaN), or one of the two
    errors of [create_pay_record].  In particular never an [IndexError]
    nor a [TypeError]. *)
Theorem main_exceptions (file : option (list (list string))) (e : exn) :
  snd (main int_of_str Decimal_of_str file) = Some e ->
  e = RuntimeError
  \/ (exists row, (length row < 3)%nat
                  /\ e = ValueError (Row_does_not_contain_columns 3 row))
  \/ row_defect e.
Proof.
  unfold main.
  destruct file as [[|header data]|]; simpl; [| | discriminate].
  - intros [= <-]. left. reflexivity.
  - destruct (yield_rows_yielded data) as [Hrows Hstop].
    destruct (yield_rows data) as [rows stopped]. simpl in *.
    pose proof (main_loop_raises rows e Hrows ∅) as Hloop.
    destruct (main_loop int_of_str Decimal_of_str rows ∅) as [records [e'|]];
      simpl in *.
    + intros H. right; right. apply Hloop. exact H.
    + intros ->. destruct Hstop as [Hnone | (row & Hlen & Hsome)];
        [discriminate|].
      injection Hsome as ->. right; left. exists row. split; [exact Hlen | reflexivity].
Qed.

Lemma add_keeps_id (record : PayRecord) (hs rs : list Decimal) :
  _id (add_rates (add_hours record hs) rs) = _id record.
Proof. reflexivity. Qed.

Lemma loop_body_keyed (combined_records combined_records' : gmap Z PayRecord)
    (row : list string) :
  keyed_by_id combined_records ->
  loop_body int_of_str Decimal_of_str combined_records row = Ok combined_records' ->
  keyed_by_id combined_records'.
Proof.
  intros Hkeyed Hbody id record.
  destruct (loop_body_Ok _ _ _ Hbody)
    as (employee_id & hs & rs &
        [[Hnone (visa & ytd & created & Hc & ->)] | (known & Hsome & ->)]);
    rewrite lookup_insert; case_decide as Hid.
  - intros [= <-]. rewrite <- Hid. exact (create_pay_record_id _ _ _ _ _ _ Hc).
  - apply Hkeyed.
  - intros [= <-]. rewrite <- Hid. simpl. exact (Hkeyed _ _ Hsome).
  - apply Hkeyed.
Qed.

Lemma main_loop_keyed (rows : list (list string)) :
  forall combined_records : gmap Z PayRecord,
    keyed_by_id combined_records ->
    keyed_by_id (fst (main_loop int_of_str Decimal_of_str rows combined_records)).
Proof.
  induction rows as [|row rows IH]; intros combined_records Hkeyed; simpl.
  - exact Hkeyed.
  - destruct (loop_body _ _ combined_records row) as [records'|e] eqn:Hbody.
    + apply IH. exact (loop_body_keyed _ _ _ Hkeyed Hbody).
    + exact Hkeyed.
Qed.

(** X9. Whatever the file, and whether the loop of [main] ends or is
    cut short by an exception, every record of the dict is filed under
    its own id. *)
Theorem main_records_keyed_by_id (file : option (list (list string))) :
  keyed_by_id (fst (main int_of_str Decimal_of_str file)).
Proof.
  unfold main.
  destruct (import_pay_records file) as [rows stopped].
  pose proof (main_loop_keyed rows ∅) as Hkeyed.
  destruct (main_loop int_of_str Decimal_of_str rows ∅) as [records [e|]];
    simpl in *; apply Hkeyed; intros id record; rewrite lookup_empty; discriminate.
Qed.

Lemma grown_from_refl (record : PayRecord) : grown_from record record.
Proof. unfold grown_from. repeat split; reflexivity. Qed.

Lemma grown_from_add (earlier record : PayRecord) (hs rs : list Decimal) :
  grown_from earlier record ->
  grown_from earlier (add_rates (add_hours record hs) rs).
Proof.
  intros (Hid & Hv & Hc & Hh & Hr). unfold grown_from. simpl.
  repeat split; try assumption.
  - etransitivity; [exact Hh | apply prefix_app_r; reflexivity].
  - etransitivity; [exact Hr | apply prefix_app_r; reflexivity].
Qed.

(** X10. The loop of [main] never removes a record and never rewrites
    one: a record that is in the dict is still there, under the same id,
    after any further rows, with the same id, kind, visa, year to date
    and tax table, and with hours and rates that extend the former ones
    at their end; this also holds when a later row raises. *)
Theorem main_loop_records_grow (rows : list (list string))
    (combined_records : gmap Z PayRecord) (id : Z) (record : PayRecord) :
  combined_records !! id = Some record ->
  exists record',
    fst (main_loop int_of_str Decimal_of_str rows combined_records) !! id
    = Some record'
    /\ grown_from record record'.
Proof.
  revert combined_records record.
  induction rows as [|row rows IH]; intros combined_records record Hid; simpl.
  - exists record. split; [exact Hid | apply grown_from_refl].
  - destruct (loop_body _ _ combined_records row) as [records'|e] eqn:Hbody.
    + destruct (loop_body_Ok _ _ _ Hbody)
        as (employee_id & hs & rs &
            [[Hnone (visa & ytd & created & Hc & ->)] | (known & Hsome & ->)]).
      * apply IH. rewrite lookup_insert_ne; [exact Hid | congruence].
      * destruct (decide (employee_id = id)) as [-> | Hne].
        -- assert (known = record) as -> by congruence.
           destruct (IH (<[id := add_rates (add_hours record hs) rs]> combined_records)
                       (add_rates (add_hours record hs) rs))
             as (record' & Hlook & Hgrown).
           { apply lookup_insert_eq. }
           exists record'. split; [exact Hlook|].
           destruct Hgrown as (H1 & H2 & H3 & H4 & H5).
           unfold grown_from. simpl in *. repeat split; try assumption.
           ++ etransitivity; [|exact H4]. apply prefix_app_r. reflexivity.
           ++ etransitivity; [|exact H5]. apply prefix_app_r. reflexivity.
        -- apply IH. rewrite lookup_insert_ne; [exact Hid | exact Hne].
    + exists record. split; [exact Hid | apply grown_from_refl].
Qed.

(** X11. Reading two runs of rows one after the other is reading their
    concatenation: the loop on [rows1 ++ rows2] goes on with [rows2] from
    the dict [rows1] has left, unless [rows1] has raised, in which case
    [rows2] is not read. *)
Theorem main_loop_app (rows1 rows2 : list (list string))
    (combined_records : gmap Z PayRecord) :
  main_loop int_of_str Decimal_of_str (rows1 ++ rows2) combined_records
  = match main_loop int_of_str Decimal_of_str rows1 combined_records with
    | (combined_records', None) =>
        main_loop int_of_str Decimal_of_str rows2 combined_records'
    | aborted => aborted
    end.
Proof.
  revert combined_records.
  induction rows1 as [|row rows1 IH]; intros combined_records; simpl.
  - reflexivity.
  - destruct (loop_body _ _ combined_records row); [apply IH | reflexivity].
Qed.

End MainLoopInvariants.

Lemma main_exceptions_witness :
  ValueError Hours_must_be_positive = RuntimeError
  \/ (exists row, (length row < 3)%nat
                  /\ ValueError Hours_must_be_positive
                     = ValueError (Row_does_not_contain_columns 3 row))
  \/ row_defect (ValueError Hours_must_be_positive).
Proof.
  apply (main_exceptions Literal.int_of_str Literal.Decimal_of_str
           (Some [ ["id"; "hours"; "rates"]; ["1"; "0"; "20"] ]%string)).
  reflexivity.
Defined.

Lemma main_loop_records_grow_witness :
  exists record',
    fst (Refactor.main_loop Literal.int_of_str Literal.Decimal_of_str
           [ ["1"; "4"; "22"]; ["2"; "x"; "1"] ]%string
           {[ 1%Z := Refactor.ResidentPayRecord 1 [8] [20] ]}) !! 1%Z
    = Some record'
    /\ grown_from (Refactor.ResidentPayRecord 1 [8] [20]) record'.
Proof.
  apply (main_loop_records_grow Literal.int_of_str Literal.Decimal_of_str).
  reflexivity.
Defined.

(** ** Records whose hours and rates stay aligned *)

Section Aligned.

Import Refactor.

Variable int_of_str : string -> option Z.
Variable Decimal_of_str : string -> option Decimal.

Lemma read_records_fold (header : list string) (rows : list (list string))
    (entries : list entry) :
  Forall2 (fun row e => read_row int_of_str Decimal_of_str row = Ok e) rows entries ->
  Refactor2._read_records int_of_str Decimal_of_str (Some (header :: rows))
  = (fold_left merge entries ∅, None)
  /\ Forall (fun e => _id (entry_record e) = entry_id e
                      /\ _hours (entry_record e) = entry_hours e
                      /\ _rates (entry_record e) = entry_rates e) entries.
Proof.
  intros Hrows. split.
  - unfold Refactor2._read_records, Refactor2.read_pay_records. simpl.
    rewrite yield_rows_all.
    + rewrite (read_loop_merge _ _ _ _ Hrows). reflexivity.
    + clear -Hrows. induction Hrows as [|row e rows entries Hrow _ IH];
        constructor; [apply (read_row_fields _ _ _ _ Hrow) | exact IH].
  - clear -Hrows. induction Hrows as [|row e rows entries Hrow _ IH];
      constructor; [apply (read_row_fields _ _ _ _ Hrow) | exact IH].
Qed.

Lemma concat_lengths_aligned (later : list entry) :
  Forall (fun e => length (entry_hours e) = length (entry_rates e)) later ->
  length (concat (map entry_hours later)) = length (concat (map entry_rates later)).
Proof.
  induction 1 as [|e later He _ IH]; simpl; [reflexivity|].
  rewrite !length_app, He, IH. reflexivity.
Qed.

(** X12. When every row of a valid file carries as many hours as rates,
    every record [_read_records] returns has as many hours as rates, so
    that its income pairs all of them, none being cut off. *)
Theorem aggregated_records_aligned (header : list string)
    (rows : list (list string)) (entries : list entry) (id : Z)
    (record : PayRecord) :
  Forall2 (fun row e => read_row int_of_str Decimal_of_str row = Ok e) rows entries ->
  Forall (fun e => length (entry_hours e) = length (entry_rates e)) entries ->
  fst (Refactor2._read_records int_of_str Decimal_of_str (Some (header :: rows)))
    !! id = Some record ->
  length (_hours record) = length (_rates record).
Proof.
  intros Hrows Haligned.
  destruct (read_records_fold header rows entries Hrows) as [-> Hids].
  cbn [fst].
  rewrite fold_merge_lookup
    by (eapply Forall_impl; [exact Hids|]; intros e He; apply He).
  rewrite lookup_empty.
  destruct (List.filter _ entries) as [|first later] eqn:Hf; [discriminate|].
  intros [= <-]. unfold extended. simpl.
  assert (Hsub : forall e, In e (first :: later) -> In e entries).
  { intros e He. rewrite <- Hf in He. apply filter_In in He. apply He. }
  rewrite Forall_forall in Haligned, Hids.
  destruct (Hids first) as (_ & -> & ->).
  { apply list_elem_of_In, Hsub. left. reflexivity. }
  rewrite !length_app. f_equal.
  - apply Haligned, list_elem_of_In, Hsub. left. reflexivity.
  - apply concat_lengths_aligned. apply Forall_forall. intros e He.
    apply Haligned, list_elem_of_In, Hsub. right. apply list_elem_of_In, He.
Qed.

(** X13. The factory of pay_records_refactor_2.py makes a working
    holiday record only from exactly two further columns that are both
    non-empty, the second a decimal; with fewer than two further columns
    it makes a resident record, whatever the signs of the hours and the
    rates; with more than two it raises a [TypeError].  It raises nothing
    else than that or the error of [Decimal]. *)
Theorem create_star_cases (employee_id : Z) (hs rs : list Decimal)
    (rest : list string) :
  ((2 < length rest)%nat ->
   Refactor2.create_star Decimal_of_str employee_id hs rs rest
   = Raise (TypeError Too_many_arguments))
  /\ ((length rest < 2)%nat ->
      Refactor2.create_star Decimal_of_str employee_id hs rs rest
      = Ok (ResidentPayRecord employee_id hs rs))
  /\ (forall record,
         Refactor2.create_star Decimal_of_str employee_id hs rs rest = Ok record ->
         record = ResidentPayRecord employee_id hs rs
         \/ exists v y ytd,
             rest = [v; y] /\ v <> ""%string /\ y <> ""%string
             /\ Decimal_of_str y = Some ytd
             /\ record = WorkingHolidayPayRecord employee_id hs rs v (Some ytd))
  /\ (forall e,
         Refactor2.create_star Decimal_of_str employee_id hs rs rest = Raise e ->
         e = TypeError Too_many_arguments \/ e = InvalidOperation).
Proof.
  destruct rest as [|v [|y [|z rest]]]; unfold Refactor2.create_star;
    cbn [length].
  - repeat split; try lia; try discriminate. intros record [= <-]. left. reflexivity.
  - repeat split; try lia; try discriminate. intros record [= <-]. left. reflexivity.
  - unfold Refactor2.create.
    split; [lia|]. split; [lia|].
    destruct v as [|a v]; [|destruct y as [|b y]]; cbn [truthy andb].
    + split; [intros record [= <-]; left; reflexivity | discriminate].
    + split; [intros record [= <-]; left; reflexivity | discriminate].
    + unfold to_Decimal.
      destruct (Decimal_of_str (String b y)) as [ytd|] eqn:Hy;
        cbn [mbind result_bind].
      * split; [|discriminate]. intros record [= <-]. right.
        exists (String a v), (String b y), ytd. repeat split; try discriminate.
        exact Hy.
      * split; [discriminate|]. intros e [= <-]. right. reflexivity.
  - split; [reflexivity|]. split; [lia|].
    split; [discriminate|]. intros e [= <-]. left. reflexivity.
Qed.

End Aligned.

Lemma aggregated_records_aligned_witness :
  length (Refactor._hours (Refactor.ResidentPayRecord 2 [5; 4; 6] [30; 22; 23]))
  = length (Refactor._rates (Refactor.ResidentPayRecord 2 [5; 4; 6] [30; 22; 23])).
Proof.
  apply (aggregated_records_aligned Literal.int_of_str Literal.Decimal_of_str
           ["id"; "hours"; "rates"]%string
           [ ["2"; "5"; "30"]; ["2"; "4,6"; "22,23"] ]%string
           [ mkEntry 2 [5] [30] (Refactor.ResidentPayRecord 2 [5] [30]);
             mkEntry 2 [4; 6] [22; 23] (Refactor.ResidentPayRecord 2 [4; 6] [22; 23]) ]
           2%Z).
  - repeat constructor.
  - repeat constructor.
  - reflexivity.
Defined.

Lemma create_star_cases_witness :
  Refactor2.create_star Literal.Decimal_of_str 4 [0] [-3] ["417"]%string
  = Ok (Refactor.ResidentPayRecord 4 [0] [-3])
  /\ Refactor2.create_star Literal.Decimal_of_str 4 [8] [20]
       ["417"; "100"; "x"]%string
     = Raise (TypeError Too_many_arguments).
Proof.
  split.
  - apply (create_star_cases Literal.Decimal_of_str 4 [0] [-3] ["417"]%string).
    simpl. lia.
  - apply (create_star_cases Literal.Decimal_of_str 4 [8] [20]
             ["417"; "100"; "x"]%string).
    simpl. lia.
Defined.

(** ** Rows of the first iteration *)

Section OriginalRows.

Variable int_of_str : string -> option Z.
Variable Decimal_of_str : string -> option Decimal.

Lemma to_int_raises (s : string) (e : exn) :
  Refactor.to_int int_of_str s = Raise e -> e = ValueError (Invalid_literal s).
Proof.
  unfold Refactor.to_int. destruct (int_of_str s); [discriminate|].
  intros [= <-]. reflexivity.
Qed.

(** X14. In pay_records.py a row of fewer than five columns always ends
    the loop, the dict left as it was: with an [IndexError], unless the
    conversion of one of its first three columns has failed before the
    missing column is reached.  So a row of three columns, which the
    refactored files read as a resident row, is not read by the first
    iteration. *)
Theorem original_row_needs_five_columns (row : list string)
    (rest : list (list string)) (combined_records : gmap Z Original.PayRecord) :
  (length row < 5)%nat ->
  exists e,
    Original.main_loop int_of_str Decimal_of_str (row :: rest) combined_records
    = (combined_records, Some e)
    /\ (e = IndexError \/ (exists s, e = ValueError (Invalid_literal s))
        \/ e = InvalidOperation).
Proof.
  intros Hlen. cbn [Original.main_loop].
  unfold Original.loop_body, index.
  destruct row as [|c0 [|c1 [|c2 [|c3 [|c4 row]]]]]; simpl in Hlen; try lia;
    cbn [lookup list_lookup mbind result_bind];
    repeat match goal with
           | |- context [Refactor.to_int ?f ?s] =>
               let H := fresh "Hint" in
               destruct (Refactor.to_int f s) eqn:H; cbn [mbind result_bind]
           | |- context [comprehension ?f ?l] =>
               let H := fresh "Hdec" in
               destruct (comprehension f l) eqn:H; cbn [mbind result_bind]
           end;
    eexists; (split; [reflexivity|]);
    try (left; reflexivity);
    try (right; left; eexists; eapply to_int_raises; eassumption);
    try (right; right;
         eapply (comprehension_to_Decimal_raises Decimal_of_str); eassumption).
Qed.

End OriginalRows.

Lemma original_row_needs_five_columns_witness :
  exists e,
    Original.main_loop Literal.int_of_str Literal.Decimal_of_str
      [ ["2"; "8"; "20"]; ["3"; "8"; "20"; ""; ""] ]%string ∅
    = (∅, Some e)
    /\ (e = IndexError \/ (exists s, e = ValueError (Invalid_literal s))
        \/ e = InvalidOperation).
Proof.
  apply (original_row_needs_five_columns Literal.int_of_str Literal.Decimal_of_str).
  simpl. lia.
Defined.

(** ** [export_to_csv] *)

Section ExportRows.

Import Refactor Csv.

(** A record whose tax can be computed has a row, with the net the
    income minus the tax. *)
Lemma row_of_taxed (record : PayRecord) (i t : Decimal) :
  income record = Ok i -> tax record = Ok t ->
  row_of record
  = Ok ([ ("id", int_cell (_id record)); ("income", decimal_cell i);
          ("tax", decimal_cell t); ("net", decimal_cell (i - t)) ]%string
        ++ match variant_of record with
           | WorkingHoliday visa ytd =>
               [ ("visa", str_cell visa);
                 ("yeartodate",
                  match ytd with
                  | Some y => decimal_cell y
                  | None => none_cell
                  end) ]%string
           | Resident =>
               [ ("visa", str_cell ""); ("yeartodate", str_cell "") ]%string
           end).
Proof.
  intros Hi Ht. unfold row_of, net. rewrite Hi, Ht. reflexivity.
Qed.

Lemma row_of_untaxed (record : PayRecord) (e : exn) :
  tax record = Raise e -> row_of record = Raise e.
Proof.
  unfold row_of, tax.
  destruct (income record) as [i|e']; cbn [mbind result_bind].
  - intros Ht. unfold net, tax.
    destruct (income record) as [i'|e'']; cbn [mbind result_bind];
      rewrite Ht; reflexivity.
  - intros [= <-]. reflexivity.
Qed.

Lemma tax_of_nonnegative_income (record : PayRecord) (i : Decimal) :
  Partition 0 (_tax_brackets (_tax_calculator record)) ->
  income record = Ok i -> 0 <= i ->
  exists t, tax record = Ok t.
Proof.
  intros Hpart Hi Hnn. unfold tax, calculate_tax. rewrite Hi.
  cbn [mbind result_bind].
  destruct (Partition_bands _ _ Hpart i) as [_ Hge].
  destruct (Hge Hnn) as (b & _ & _ & ->). eexists. reflexivity.
Qed.

(** X15. When every record has one of the tables that split the
    non-negative incomes and a finite non-negative income,
    [export_to_csv] raises nothing and writes the header and then one
    row for each record, in their order; the row holds the id, the
    income, the tax and the net of the record as the three properties
    return them, then the visa and the year to date of a working holiday
    record, two empty strings for a resident one. *)
Theorem export_to_csv_complete (values : list PayRecord) :
  Forall (fun record =>
            Partition 0 (_tax_brackets (_tax_calculator record))
            /\ exists i, income record = Ok i /\ 0 <= i) values ->
  exists rows,
    export_to_csv values = (header_line header :: map row_line rows, None)
    /\ Forall2
         (fun record row =>
            exists i t n,
              income record = Ok i /\ tax record = Ok t /\ net record = Ok n
              /\ row = [ ("id", int_cell (_id record));
                         ("income", decimal_cell i);
                         ("tax", decimal_cell t);
                         ("net", decimal_cell n);
                         ("visa",
                          match variant_of record with
                          | WorkingHoliday visa _ => str_cell visa
                          | Resident => str_cell ""
                          end);
                         ("yeartodate",
                          match variant_of record with
                          | WorkingHoliday _ (Some y) => decimal_cell y
                          | WorkingHoliday _ None => none_cell
                          | Resident => str_cell ""
                          end) ])%string
         values rows.
Proof.
  intros Hvalues.
  assert (Hrows : exists rows,
             write_rows values = (map row_line rows, None)
             /\ Forall2
                  (fun record row =>
                     exists i t n,
                       income record = Ok i /\ tax record = Ok t
                       /\ net record = Ok n
                       /\ row = [ ("id", int_cell (_id record));
                                  ("income", decimal_cell i);
                                  ("tax", decimal_cell t);
                                  ("net", decimal_cell n);
                                  ("visa",
                                   match variant_of record with
                                   | WorkingHoliday visa _ => str_cell visa
                                   | Resident => str_cell ""
                                   end);
                                  ("yeartodate",
                                   match variant_of record with
                                   | WorkingHoliday _ (Some y) => decimal_cell y
                                   | WorkingHoliday _ None => none_cell
                                   | Resident => str_cell ""
                                   end) ])%string
                  values rows).
  { induction Hvalues as [|record values (Hpart & i & Hi & Hnn) _ IH].
    - exists []. split; [reflexivity | constructor].
    - destruct IH as (rows & Hw & Hall).
      destruct (tax_of_nonnegative_income record i Hpart Hi Hnn) as [t Ht].
      pose proof (row_of_taxed record i t Hi Ht) as Hrow.
      eexists (_ :: rows). cbn [write_rows]. rewrite Hrow, Hw.
      split; [reflexivity|]. constructor; [|exact Hall].
      exists i, t, (i - t).
      repeat split; try assumption.
      + unfold net. rewrite Hi, Ht. reflexivity.
      + destruct (variant_of record) as [|visa [y|]]; reflexivity. }
  destruct Hrows as (rows & Hw & Hall).
  exists rows. unfold export_to_csv. rewrite Hw. split; [reflexivity | exact Hall].
Qed.

(** X16. [export_to_csv] stops at the first record whose tax raises:
    the header and the rows of the records before it have been written,
    the exception of the tax comes out, and no later record is
    written. *)
Theorem export_to_csv_stops (good rest : list PayRecord) (bad : PayRecord)
    (rows : list (list (string * cell))) (e : exn) :
  Forall2 (fun record row => row_of record = Ok row) good rows ->
  tax bad = Raise e ->
  export_to_csv (good ++ bad :: rest)
  = (header_line header :: map row_line rows, Some e).
Proof.
  intros Hgood Hbad.
  assert (Hw : write_rows (good ++ bad :: rest) = (map row_line rows, Some e)).
  { induction Hgood as [|record row good rows Hrow _ IH]; cbn [app write_rows map].
    - rewrite (row_of_untaxed bad e Hbad). reflexivity.
    - rewrite Hrow, IH. reflexivity. }
  unfold export_to_csv. rewrite Hw. reflexivity.
Qed.

End ExportRows.

Lemma export_to_csv_complete_witness :
  exists rows,
    Csv.export_to_csv
      [Refactor.ResidentPayRecord 1 [10; 5] [40; 45];
       Refactor.WorkingHolidayPayRecord 2 [100] [30] "417" (Some 36000)]
    = (Csv.header_line Csv.header :: map Csv.row_line rows, None)
    /\ Forall2
         (fun record row =>
            exists i t n,
              Refactor.income record = Ok i /\ Refactor.tax record = Ok t
              /\ Refactor.net record = Ok n
              /\ row = [ ("id", Csv.int_cell (Refactor._id record));
                         ("income", Csv.decimal_cell i);
                         ("tax", Csv.decimal_cell t);
                         ("net", Csv.decimal_cell n);
                         ("visa",
                          match Refactor.variant_of record with
                          | Refactor.WorkingHoliday visa _ => Csv.str_cell visa
                          | Refactor.Resident => Csv.str_cell ""
                          end);
                         ("yeartodate",
                          match Refactor.variant_of record with
                          | Refactor.WorkingHoliday _ (Some y) => Csv.decimal_cell y
                          | Refactor.WorkingHoliday _ None => Csv.none_cell
                          | Refactor.Resident => Csv.str_cell ""
                          end) ])%string
         [Refactor.ResidentPayRecord 1 [10; 5] [40; 45];
          Refactor.WorkingHolidayPayRecord 2 [100] [30] "417" (Some 36000)]
         rows.
Proof.
  apply export_to_csv_complete.
  repeat constructor.
  - apply RESIDENT_TAX_BRACKETS_Partition.
  - eexists. split; [reflexivity | discriminate].
  - apply WORKING_HOLIDAY_TAX_BRACKETS_Partition.
  - eexists. split; [reflexivity | discriminate].
Defined.

Lemma export_to_csv_stops_witness :
  exists rows,
    Csv.export_to_csv
      ([Refactor.ResidentPayRecord 1 [8] [20]]
       ++ Refactor.WorkingHolidayPayRecord 2 [8] [20] "417" (Some (-5000))
       :: [Refactor.ResidentPayRecord 3 [8] [20]])
    = (Csv.header_line Csv.header :: map Csv.row_line rows,
       Some (ValueError (No_suitable_tax_bracket (-5000 + sum_products [8] [20]))))
    /\ length rows = 1%nat.
Proof.
  eexists. split.
  - apply (export_to_csv_stops [Refactor.ResidentPayRecord 1 [8] [20]]).
    + repeat constructor.
    + reflexivity.
  - reflexivity.
Defined.
